(** * Rotations in space: Euler angles, matrices and rotors

    A shallow embedding of the code cells of
    [docs/tutorials/euler-angles.ipynb] of the [clifford] package, and the
    properties the design document states about them.

    The notebook works in the three-dimensional geometric algebra [Cl(3)]
    on Python floats.  Here coefficients are real numbers ([R] of the
    Standard Library): every statement below is about the exact arithmetic
    that the floating-point cells approximate.  The one place where a float
    leaves the reals, the division [R/abs(R)] by a zero magnitude, is
    written out with the IEEE results ([nan], [inf]) that numpy produces. *)

From Stdlib Require Import Reals List Lra Lia RNsatz.
Import ListNotations.

Local Open Scope R_scope.

(* ------------------------------------------------------------------ *)
(** * Results of a call: a value or a raised exception *)

(** [ValueError] and [IndexError] are the exceptions the cells can raise
    ([float()] of a non-scalar multivector, [reshape] of a list of the wrong
    size, an index out of the array).  [DegenerateRotationError] and
    [InvalidInputError] are the two error kinds of the design document; no
    cell of the notebook constructs either of them. *)
Inductive exn : Type :=
| ValueError
| IndexError
| DegenerateRotationError
| InvalidInputError.

Inductive result (A : Type) : Type :=
| Ok (a : A)
| Raise (e : exn).

Arguments Ok {A} a.
Arguments Raise {A} e.

Definition bind {A B : Type} (m : result A) (k : A -> result B) : result B :=
  match m with
  | Ok a => k a
  | Raise e => Raise e
  end.

Notation "x <- m ;; k" := (bind m (fun x => k))
  (at level 61, m at next level, right associativity).

Definition raises {A : Type} (m : result A) (e : exn) : Prop := m = Raise e.

Definition returns {A : Type} (m : result A) : Prop := exists a, m = Ok a.

(** A comprehension whose body can raise: the elements are evaluated from
    left to right and the first exception ends the evaluation. *)
Fixpoint mapM {A B : Type} (f : A -> result B) (l : list A) : result (list B) :=
  match l with
  | [] => Ok []
  | x :: tl => y <- f x ;; ys <- mapM f tl ;; Ok (y :: ys)
  end.

(* ------------------------------------------------------------------ *)
(** * Floats that left the reals *)

(** The quotient of two floats is a real number, an infinity or [nan]. *)
Inductive xreal : Type :=
| Fin (r : R)
| PInf
| NInf
| NaN.

(** IEEE division of [x] by [y] where [y] is never the negative zero (the
    divisor of the notebook is a square root): [0/0] is [nan], [x/0] is
    the infinity of the sign of [x]. *)
Definition fdiv (x y : R) : xreal :=
  if Req_dec_T y 0 then
    if Req_dec_T x 0 then NaN
    else if Rlt_dec 0 x then PInf else NInf
  else Fin (x / y).

(* ------------------------------------------------------------------ *)
(** * The algebra [Cl(3)] *)

Module GA.

(** Modelled from the spec: the multivectors of the external
    geometric-algebra library ([layout, blades = Cl(3)]).  A multivector has
    one coefficient per basis blade, in the library's order
    [1, e1, e2, e3, e12, e13, e23, e123]. *)
Record MV : Type := mkMV {
  c0 : R;
  c1 : R; c2 : R; c3 : R;
  c12 : R; c13 : R; c23 : R;
  c123 : R
}.

(** A real number as a multivector, as the library coerces the operands
    of [1 + M] and [0 + M]. *)
Definition scalar (x : R) : MV := mkMV x 0 0 0 0 0 0 0.

Definition zero : MV := scalar 0.
Definition one : MV := scalar 1.

(** Modelled from the spec: the basis blades that [locals().update(blades)]
    binds, three basis vectors, three basis bivectors and the
    pseudoscalar. *)
Definition e1 : MV := mkMV 0 1 0 0 0 0 0 0.
Definition e2 : MV := mkMV 0 0 1 0 0 0 0 0.
Definition e3 : MV := mkMV 0 0 0 1 0 0 0 0.
Definition e12 : MV := mkMV 0 0 0 0 1 0 0 0.
Definition e13 : MV := mkMV 0 0 0 0 0 1 0 0.
Definition e23 : MV := mkMV 0 0 0 0 0 0 1 0.
Definition e123 : MV := mkMV 0 0 0 0 0 0 0 1.

(** Modelled from the spec: addition of multivectors ([+] of the library),
    coefficient by coefficient. *)
Definition add (a b : MV) : MV :=
  mkMV (c0 a + c0 b)
       (c1 a + c1 b) (c2 a + c2 b) (c3 a + c3 b)
       (c12 a + c12 b) (c13 a + c13 b) (c23 a + c23 b)
       (c123 a + c123 b).

(** Modelled from the spec: multiplication of a multivector by a real
    number ([x*M] of the library). *)
Definition smul (x : R) (a : MV) : MV :=
  mkMV (x * c0 a)
       (x * c1 a) (x * c2 a) (x * c3 a)
       (x * c12 a) (x * c13 a) (x * c23 a)
       (x * c123 a).

Definition neg (a : MV) : MV := smul (-1) a.

(** Modelled from the spec: the geometric product ([*] of the library) of
    the algebra with [e1*e1 = e2*e2 = e3*e3 = 1] and anticommuting basis
    vectors, [e12 = e1*e2], [e13 = e1*e3], [e23 = e2*e3],
    [e123 = e1*e2*e3].  Each line collects the blade products that land on
    one basis blade. *)
Definition gp (a b : MV) : MV :=
  mkMV
    (c0 a * c0 b + c1 a * c1 b + c2 a * c2 b + c3 a * c3 b
     - c12 a * c12 b - c13 a * c13 b - c23 a * c23 b - c123 a * c123 b)
    (c0 a * c1 b + c1 a * c0 b - c2 a * c12 b - c3 a * c13 b
     + c12 a * c2 b + c13 a * c3 b - c23 a * c123 b - c123 a * c23 b)
    (c0 a * c2 b + c1 a * c12 b + c2 a * c0 b - c3 a * c23 b
     - c12 a * c1 b + c13 a * c123 b + c23 a * c3 b + c123 a * c13 b)
    (c0 a * c3 b + c1 a * c13 b + c2 a * c23 b + c3 a * c0 b
     - c12 a * c123 b - c13 a * c1 b - c23 a * c2 b - c123 a * c12 b)
    (c0 a * c12 b + c1 a * c2 b - c2 a * c1 b + c3 a * c123 b
     + c12 a * c0 b - c13 a * c23 b + c23 a * c13 b + c123 a * c3 b)
    (c0 a * c13 b + c1 a * c3 b - c2 a * c123 b - c3 a * c1 b
     + c12 a * c23 b + c13 a * c0 b - c23 a * c12 b - c123 a * c2 b)
    (c0 a * c23 b + c1 a * c123 b + c2 a * c3 b - c3 a * c2 b
     - c12 a * c13 b + c13 a * c12 b + c23 a * c0 b + c123 a * c1 b)
    (c0 a * c123 b + c1 a * c23 b - c2 a * c13 b + c3 a * c12 b
     + c12 a * c3 b - c13 a * c2 b + c23 a * c1 b + c123 a * c0 b).

(** Modelled from the spec: grade reversal ([~M] of the library), which
    negates the bivector and trivector parts. *)
Definition reverse (a : MV) : MV :=
  mkMV (c0 a) (c1 a) (c2 a) (c3 a)
       (- c12 a) (- c13 a) (- c23 a) (- c123 a).

(** Modelled from the spec: the part of grade [k] of a multivector
    ([M(k)] of the library); the design document keeps the grades 0, 1
    and 2 apart, the library has the grade 3 as well. *)
Definition grade (k : nat) (a : MV) : MV :=
  match k with
  | 0%nat => mkMV (c0 a) 0 0 0 0 0 0 0
  | 1%nat => mkMV 0 (c1 a) (c2 a) (c3 a) 0 0 0 0
  | 2%nat => mkMV 0 0 0 0 (c12 a) (c13 a) (c23 a) 0
  | 3%nat => mkMV 0 0 0 0 0 0 0 (c123 a)
  | _ => zero
  end.

Definition absdiff (r s : nat) : nat := ((r - s) + (s - r))%nat.

Definition sum_mv (l : list MV) : MV := fold_right add zero l.

(** Modelled from the spec: the inner product ([b|a] of the library).  The
    design document describes it on vectors, as the grade-0 part of their
    geometric product; on multivectors it is the library's default inner
    product, the part of grade [|r-s|] of the product of the parts of grade
    [r] and [s], both at least 1. *)
Definition inner (a b : MV) : MV :=
  sum_mv
    (flat_map
       (fun r => map (fun s => grade (absdiff r s) (gp (grade r a) (grade s b)))
                     [1%nat; 2%nat; 3%nat])
       [1%nat; 2%nat; 3%nat]).

(** Modelled from the spec: the magnitude ([abs(M)] of the library), the
    square root of the scalar part of [M * reverse M]. *)
Definition mag2 (a : MV) : R := c0 (gp a (reverse a)).

Definition mag (a : MV) : R := sqrt (mag2 a).

(** Modelled from the spec: the exponential [e**(t*B)] of the library for a
    unit bivector [B] ([B*B = -1]), in the closed form
    [cos t + sin t * B]. *)
Definition exp_blade (t : R) (B : MV) : MV :=
  add (scalar (cos t)) (smul (sin t) B).

(** A multivector whose coefficients are quotients of floats. *)
Record XMV : Type := mkXMV {
  x0 : xreal;
  x1 : xreal; x2 : xreal; x3 : xreal;
  x12 : xreal; x13 : xreal; x23 : xreal;
  x123 : xreal
}.

Definition finite (a : MV) : XMV :=
  mkXMV (Fin (c0 a))
        (Fin (c1 a)) (Fin (c2 a)) (Fin (c3 a))
        (Fin (c12 a)) (Fin (c13 a)) (Fin (c23 a))
        (Fin (c123 a)).

Definition all_nan : XMV := mkXMV NaN NaN NaN NaN NaN NaN NaN NaN.

(** Modelled from the spec: division of a multivector by a float ([M/x] of
    the library), which divides the array of coefficients by [x]; numpy
    warns and does not raise when [x] is zero. *)
Definition div (a : MV) (x : R) : XMV :=
  mkXMV (fdiv (c0 a) x)
        (fdiv (c1 a) x) (fdiv (c2 a) x) (fdiv (c3 a) x)
        (fdiv (c12 a) x) (fdiv (c13 a) x) (fdiv (c23 a) x)
        (fdiv (c123 a) x).

(** A multivector with no part of grade 1, 2 or 3. *)
Definition is_scalar (a : MV) : Prop :=
  c1 a = 0 /\ c2 a = 0 /\ c3 a = 0 /\
  c12 a = 0 /\ c13 a = 0 /\ c23 a = 0 /\ c123 a = 0.

Definition is_scalar_dec (a : MV) : {is_scalar a} + {~ is_scalar a}.
Proof.
  unfold is_scalar.
  destruct (Req_dec_T (c1 a) 0); [|right; tauto].
  destruct (Req_dec_T (c2 a) 0); [|right; tauto].
  destruct (Req_dec_T (c3 a) 0); [|right; tauto].
  destruct (Req_dec_T (c12 a) 0); [|right; tauto].
  destruct (Req_dec_T (c13 a) 0); [|right; tauto].
  destruct (Req_dec_T (c23 a) 0); [|right; tauto].
  destruct (Req_dec_T (c123 a) 0); [|right; tauto].
  left; tauto.
Defined.

(** Modelled from the spec: [float(M)] of the library, the coercion of the
    inner product to a real: the scalar coefficient of a multivector that
    has no other part, and [ValueError] otherwise. *)
Definition to_float (a : MV) : result R :=
  if is_scalar_dec a then Ok (c0 a) else Raise ValueError.

End GA.

Import GA.

(* ------------------------------------------------------------------ *)
(** * Python lists and numpy arrays *)

(** [sum(l)] of Python: the fold [((0 + l[0]) + l[1]) + ...] from the left,
    starting at the integer 0. *)
Definition py_sum (l : list MV) : MV := fold_left add l (scalar 0).

(** A two-dimensional numpy array, row by row. *)
Definition Matrix : Type := list (list R).

(** [M[i,j]]: the cells only use the constant indices 0, 1, 2; numpy raises
    [IndexError] when an index is outside the array. *)
Definition getitem (M : Matrix) (i j : nat) : result R :=
  match nth_error M i with
  | Some row =>
      match nth_error row j with
      | Some x => Ok x
      | None => Raise IndexError
      end
  | None => Raise IndexError
  end.

(** [array(l).reshape(3,3)]: the nine elements of [l] in three rows;
    [ValueError] for a list of any other size. *)
Definition reshape_3_3 (l : list R) : result Matrix :=
  match l with
  | [a; b; c; d; e; f; g; h; i] => Ok [[a; b; c]; [d; e; f]; [g; h; i]]
  | _ => Raise ValueError
  end.

Definition mat3 (a b c d e f g h i : R) : Matrix :=
  [[a; b; c]; [d; e; f]; [g; h; i]].

(* ------------------------------------------------------------------ *)
(** * The cells of the notebook *)

(** <<
    def R_euler(phi, theta,psi):
        Rphi = e**(-phi/2.*e12)
        Rtheta = e**(-theta/2.*e23)
        Rpsi = e**(-psi/2.*e12)
        return Rphi*Rtheta*Rpsi
    >> *)
Definition R_euler (phi theta psi : R) : MV :=
  let Rphi := exp_blade (- phi / 2) e12 in
  let Rtheta := exp_blade (- theta / 2) e23 in
  let Rpsi := exp_blade (- psi / 2) e12 in
  gp (gp Rphi Rtheta) Rpsi.

(** <<
    B = [R*a*~R for a in A] # resultant frame after rotation
    >> *)
Definition rotateFrame (R : MV) (A : list MV) : list MV :=
  map (fun a => gp (gp R a) (reverse R)) A.

(** <<
    M = [float(b|a) for b in B for a in A]
    M = array(M).reshape(3,3)
    >>
    [A] is the original frame and [B] the rotated one. *)
Definition frameToMatrix (A B : list MV) : result Matrix :=
  M <- mapM (fun ba => to_float (inner (fst ba) (snd ba)))
            (flat_map (fun b => map (fun a => (b, a)) A) B) ;;
  reshape_3_3 M.

(** One element of the list of the cell
    <<
    B = [M[0,0]*e1 + M[1,0]*e2 + M[2,0]*e3,
         M[0,1]*e1 + M[1,1]*e2 + M[2,1]*e3,
         M[0,2]*e1 + M[1,2]*e2 + M[2,2]*e3]
    >> *)
Definition column (M : Matrix) (k : nat) : result MV :=
  m0 <- getitem M 0 k ;;
  m1 <- getitem M 1 k ;;
  m2 <- getitem M 2 k ;;
  Ok (add (add (smul m0 e1) (smul m1 e2)) (smul m2 e3)).

Definition matrixToFrame (M : Matrix) : result (list MV) :=
  b0 <- column M 0 ;;
  b1 <- column M 1 ;;
  b2 <- column M 2 ;;
  Ok [b0; b1; b2].

(** <<
    A = [e1,e2,e3]
    R = 1+sum([A[k]*B[k] for k in range(3)])
    R = R/abs(R)
    >>
    Both lists have three elements, so that the indices of [range(3)] are
    inside them. *)
Definition rotorSum (B : list MV) : MV :=
  let A := [e1; e2; e3] in
  add (scalar 1)
      (py_sum (map (fun k => gp (nth k A zero) (nth k B zero)) (seq 0 3))).

Definition matrixToRotor (M : Matrix) : result XMV :=
  B <- matrixToFrame M ;;
  let R := rotorSum B in
  Ok (div R (mag R)).

(* ------------------------------------------------------------------ *)
(** * The vocabulary of the design document *)

Definition canonical : list MV := [e1; e2; e3].

Definition is_vector (a : MV) : Prop :=
  c0 a = 0 /\ c12 a = 0 /\ c13 a = 0 /\ c23 a = 0 /\ c123 a = 0.

Definition is_even (a : MV) : Prop :=
  c1 a = 0 /\ c2 a = 0 /\ c3 a = 0 /\ c123 a = 0.

(** A rotor: an element of the even subalgebra of unit norm. *)
Definition is_rotor (a : MV) : Prop :=
  is_even a /\ gp a (reverse a) = one.

(** The dot product of two vectors: the grade-0 part of their geometric
    product. *)
Definition dot (a b : MV) : R := c0 (gp a b).

Definition delta (i j : nat) : R := if Nat.eqb i j then 1 else 0.

(** A frame: three vectors, mutually orthogonal and of unit length. *)
Definition orthonormal (F : list MV) : Prop :=
  Forall is_vector F /\
  forall i j, (i < length F)%nat -> (j < length F)%nat ->
    dot (nth i F zero) (nth j F zero) = delta i j.

Definition is_frame (F : list MV) : Prop :=
  length F = 3%nat /\ orthonormal F.

Definition entry (M : Matrix) (i j : nat) : R := nth j (nth i M []) 0.

Definition is_3x3 (M : Matrix) : Prop :=
  length M = 3%nat /\ Forall (fun row => length row = 3%nat) M.

Definition trace (M : Matrix) : R :=
  entry M 0 0 + entry M 1 1 + entry M 2 2.

Definition det (M : Matrix) : R :=
  entry M 0 0 * (entry M 1 1 * entry M 2 2 - entry M 1 2 * entry M 2 1)
  - entry M 0 1 * (entry M 1 0 * entry M 2 2 - entry M 1 2 * entry M 2 0)
  + entry M 0 2 * (entry M 1 0 * entry M 2 1 - entry M 1 1 * entry M 2 0).

(** [M^T M = 1], entry by entry. *)
Definition is_orthogonal (M : Matrix) : Prop :=
  forall i j, (i < 3)%nat -> (j < 3)%nat ->
    entry M 0 i * entry M 0 j + entry M 1 i * entry M 1 j
    + entry M 2 i * entry M 2 j = delta i j.

(** A proper rotation matrix: 3x3, orthogonal, of determinant +1. *)
Definition is_rotation (M : Matrix) : Prop :=
  is_3x3 M /\ is_orthogonal M /\ det M = 1.

(** The design document's wording of the Euler rotor:
    [R1 = exp(-(phi/2) e12)], [R2 = exp(-(theta/2) e23)],
    [R3 = exp(-(psi/2) e12)], and the product [R1 R2 R3]. *)
Definition eulerToRotor_spec (phi theta psi : R) : MV :=
  let R1 := exp_blade (- (phi / 2)) e12 in
  let R2 := exp_blade (- (theta / 2)) e23 in
  let R3 := exp_blade (- (psi / 2)) e12 in
  gp (gp R1 R2) R3.

(** The design document's wording of the matrix-to-rotor steps:
    [B[k] = sum_i M[i,k] e_i], [A] the canonical basis,
    [S = 1 + sum_k A[k] B[k]], and [S / |S|] with [|S|] the square root of
    the scalar part of [S * reverse S]. *)
Definition columnFrame_spec (M : Matrix) : list MV :=
  map (fun k =>
         sum_mv (map (fun i => smul (entry M i k) (nth i canonical zero))
                     (seq 0 3)))
      (seq 0 3).

Definition rotorSum_spec (M : Matrix) : MV :=
  add one
      (sum_mv (map (fun k => gp (nth k canonical zero)
                                (nth k (columnFrame_spec M) zero))
                   (seq 0 3))).

Definition matrixToRotor_spec (M : Matrix) : XMV :=
  let S := rotorSum_spec M in
  div S (sqrt (c0 (gp S (reverse S)))).

(** The sum [1 + sum_k A[k]*B[k]] of a 3x3 matrix with rows [a b c],
    [d e f], [g h i], blade by blade. *)
Definition closedSum (a b c d e f g h i : R) : MV :=
  mkMV (1 + (a + e + i)) 0 0 0 (d - b) (g - c) (h - f) 0.

(** The half turn about [e3], the rotation of 180 degrees in the plane
    [e12]. *)
Definition half_turn_e3 : Matrix := mat3 (-1) 0 0 0 (-1) 0 0 0 1.

(** The quarter turn about [e3]. *)
Definition quarter_turn_e3 : Matrix := mat3 0 (-1) 0 1 0 0 0 0 1.

(** Twice the identity matrix: not orthogonal. *)
Definition double_identity : Matrix := mat3 2 0 0 0 2 0 0 0 2.

(** The reflection in the plane [e12]: orthogonal, of determinant -1. *)
Definition mirror_e3 : Matrix := mat3 1 0 0 0 1 0 0 0 (-1).

Definition identity_matrix : Matrix := mat3 1 0 0 0 1 0 0 0 1.

(** The cells from the rotor to the matrix, one after the other, on the
    frame of the notebook:
    <<
    A = [e1,e2,e3]          # initial ortho-normal frame
    B = [R*a*~R for a in A] # resultant frame after rotation
    M = [float(b|a) for b in B for a in A]
    M = array(M).reshape(3,3)
    >> *)
Definition rotorToMatrix (R : MV) : result Matrix :=
  let A := [e1; e2; e3] in
  let B := rotateFrame R A in
  frameToMatrix A B.

(** The notebook from its first cell to its last: the rotor of the Euler
    angles (the notebook calls [R_euler(pi/4, pi/4, pi/4)]), its matrix,
    and the rotor of that matrix. *)
Definition notebook (phi theta psi : R) : result XMV :=
  let R := R_euler phi theta psi in
  M <- rotorToMatrix R ;;
  matrixToRotor M.

(** The transpose and the product of 3x3 matrices, entry by entry. *)
Definition transpose3 (M : Matrix) : Matrix :=
  mat3 (entry M 0 0) (entry M 1 0) (entry M 2 0)
       (entry M 0 1) (entry M 1 1) (entry M 2 1)
       (entry M 0 2) (entry M 1 2) (entry M 2 2).

Definition row_col (P Q : Matrix) (i j : nat) : R :=
  entry P i 0 * entry Q 0 j + entry P i 1 * entry Q 1 j
  + entry P i 2 * entry Q 2 j.

Definition matmul3 (P Q : Matrix) : Matrix :=
  mat3 (row_col P Q 0 0) (row_col P Q 0 1) (row_col P Q 0 2)
       (row_col P Q 1 0) (row_col P Q 1 1) (row_col P Q 1 2)
       (row_col P Q 2 0) (row_col P Q 2 1) (row_col P Q 2 2).

(** The matrices of the elemental rotations by the angle [t] in the planes
    [e12] and [e23], with the rotated basis vectors as rows. *)
Definition rows_e12 (t : R) : Matrix :=
  mat3 (cos t) (sin t) 0 (- sin t) (cos t) 0 0 0 1.

Definition rows_e23 (t : R) : Matrix :=
  mat3 1 0 0 0 (cos t) (sin t) 0 (- sin t) (cos t).

Definition is_symmetric (M : Matrix) : Prop :=
  entry M 0 1 = entry M 1 0 /\ entry M 0 2 = entry M 2 0 /\
  entry M 1 2 = entry M 2 1.

(** The matrix of the rotated basis vectors of the even multivector
    [w + x e12 + y e13 + z e23], row by row. *)
Definition quaternionMatrix (w x y z : R) : Matrix :=
  mat3 (w * w - x * x - y * y + z * z) (- 2 * (w * x + y * z))
       (2 * (x * z - w * y))
       (2 * (w * x - y * z)) (w * w - x * x + y * y - z * z)
       (- 2 * (w * z + x * y))
       (2 * (w * y + x * z)) (2 * (w * z - x * y))
       (w * w + x * x - y * y - z * z).

(** The index [(i,j)] is inside the array [M]. *)
Definition in_array (M : Matrix) (i j : nat) : Prop :=
  exists row, nth_error M i = Some row /\ (j < length row)%nat.

(** The nine entries that the matrix-to-rotor cells read. *)
Definition upperLeft (M : Matrix) : Matrix :=
  mat3 (entry M 0 0) (entry M 0 1) (entry M 0 2)
       (entry M 1 0) (entry M 1 1) (entry M 1 2)
       (entry M 2 0) (entry M 2 1) (entry M 2 2).

(** A unit rotor with a positive scalar part, of rational coefficients. *)
Definition rotor_3_4 : MV := mkMV (3 / 5) 0 0 0 (4 / 5) 0 0 0.

(** A 4x4 array and a 2x3 array. *)
Definition array_4x4 : Matrix :=
  [[0; -1; 0; 5]; [1; 0; 0; 6]; [0; 0; 1; 7]; [8; 9; 10; 11]].

Definition array_2x3 : Matrix := [[1; 0; 0]; [0; 1; 0]].

(* ------------------------------------------------------------------ *)
(** * The algebra: equality, ring laws, the basis *)

Lemma mv_eq (a b : MV) :
  c0 a = c0 b -> c1 a = c1 b -> c2 a = c2 b -> c3 a = c3 b ->
  c12 a = c12 b -> c13 a = c13 b -> c23 a = c23 b -> c123 a = c123 b ->
  a = b.
Proof. destruct a, b; simpl; intros; subst; reflexivity. Qed.

Ltac mv_ring := apply mv_eq; simpl; ring.

Lemma gp_assoc (a b c : MV) : gp (gp a b) c = gp a (gp b c).
Proof. mv_ring. Qed.

Lemma gp_one_l (a : MV) : gp one a = a.
Proof. mv_ring. Qed.

Lemma gp_one_r (a : MV) : gp a one = a.
Proof. mv_ring. Qed.

Lemma gp_add_l (a b c : MV) : gp (add a b) c = add (gp a c) (gp b c).
Proof. mv_ring. Qed.

Lemma gp_add_r (a b c : MV) : gp a (add b c) = add (gp a b) (gp a c).
Proof. mv_ring. Qed.

Lemma gp_smul_l (x : R) (a b : MV) : gp (smul x a) b = smul x (gp a b).
Proof. mv_ring. Qed.

Lemma gp_smul_r (x : R) (a b : MV) : gp a (smul x b) = smul x (gp a b).
Proof. mv_ring. Qed.

(** The relations that fix the product: unit squares, anticommutation,
    and the blades as products of the basis vectors. *)
Lemma basis_squares : gp e1 e1 = one /\ gp e2 e2 = one /\ gp e3 e3 = one.
Proof. repeat split; mv_ring. Qed.

Lemma basis_anticommute :
  gp e2 e1 = neg (gp e1 e2) /\ gp e3 e1 = neg (gp e1 e3) /\
  gp e3 e2 = neg (gp e2 e3).
Proof. repeat split; mv_ring. Qed.

Lemma basis_blades :
  gp e1 e2 = e12 /\ gp e1 e3 = e13 /\ gp e2 e3 = e23 /\
  gp (gp e1 e2) e3 = e123.
Proof. repeat split; mv_ring. Qed.

Lemma bivectors_square_to_minus_one :
  gp e12 e12 = neg one /\ gp e13 e13 = neg one /\ gp e23 e23 = neg one.
Proof. repeat split; mv_ring. Qed.

Lemma reverse_gp (a b : MV) : reverse (gp a b) = gp (reverse b) (reverse a).
Proof. mv_ring. Qed.

Lemma reverse_involutive (a : MV) : reverse (reverse a) = a.
Proof. mv_ring. Qed.

(** The closed form of the exponential is a one-parameter group when the
    blade squares to -1. *)
Lemma exp_blade_add (s t : R) (B : MV) :
  gp B B = neg one ->
  exp_blade (s + t) B = gp (exp_blade s B) (exp_blade t B).
Proof.
  intros HB. unfold exp_blade.
  rewrite gp_add_l, !gp_add_r, gp_smul_l, !gp_smul_r, gp_smul_l, HB.
  rewrite cos_plus, sin_plus.
  destruct B; mv_ring.
Qed.

Lemma exp_blade_0 (B : MV) : exp_blade 0 B = one.
Proof. unfold exp_blade. rewrite cos_0, sin_0. mv_ring. Qed.

(* ------------------------------------------------------------------ *)
(** * Magnitude *)

Lemma mag2_squares (a : MV) :
  mag2 a = c0 a * c0 a + c1 a * c1 a + c2 a * c2 a + c3 a * c3 a
           + c12 a * c12 a + c13 a * c13 a + c23 a * c23 a
           + c123 a * c123 a.
Proof. unfold mag2. simpl. ring. Qed.

Lemma mag2_nonneg (a : MV) : 0 <= mag2 a.
Proof.
  rewrite mag2_squares.
  pose proof (Rle_0_sqr (c0 a)). pose proof (Rle_0_sqr (c1 a)).
  pose proof (Rle_0_sqr (c2 a)). pose proof (Rle_0_sqr (c3 a)).
  pose proof (Rle_0_sqr (c12 a)). pose proof (Rle_0_sqr (c13 a)).
  pose proof (Rle_0_sqr (c23 a)). pose proof (Rle_0_sqr (c123 a)).
  unfold Rsqr in *. lra.
Qed.

Lemma mag_sqr (a : MV) : mag a * mag a = mag2 a.
Proof. unfold mag. apply sqrt_sqrt, mag2_nonneg. Qed.

Lemma mag_nonneg (a : MV) : 0 <= mag a.
Proof. unfold mag. apply sqrt_pos. Qed.

(** The library computes the magnitude from [~M * M]; in this algebra the
    two orders give the same scalar part. *)
Lemma mag2_reverse_first (a : MV) : c0 (gp (reverse a) a) = mag2 a.
Proof. unfold mag2. simpl. ring. Qed.

Lemma mag_zero_inv (a : MV) : mag a = 0 -> a = zero.
Proof.
  intros H. unfold mag in H.
  apply sqrt_eq_0 in H; [|apply mag2_nonneg].
  rewrite mag2_squares in H.
  pose proof (Rle_0_sqr (c0 a)). pose proof (Rle_0_sqr (c1 a)).
  pose proof (Rle_0_sqr (c2 a)). pose proof (Rle_0_sqr (c3 a)).
  pose proof (Rle_0_sqr (c12 a)). pose proof (Rle_0_sqr (c13 a)).
  pose proof (Rle_0_sqr (c23 a)). pose proof (Rle_0_sqr (c123 a)).
  unfold Rsqr in *.
  apply mv_eq; simpl; nra.
Qed.

(* ------------------------------------------------------------------ *)
(** * Division by the magnitude *)

Lemma fdiv_nonzero (x y : R) : y <> 0 -> fdiv x y = Fin (x / y).
Proof.
  intros Hy. unfold fdiv. destruct (Req_dec_T y 0); [contradiction|reflexivity].
Qed.

Lemma fdiv_0_0 : fdiv 0 0 = NaN.
Proof.
  unfold fdiv. destruct (Req_dec_T 0 0) as [_|H]; [reflexivity|].
  exfalso; apply H; reflexivity.
Qed.

Lemma div_nonzero (a : MV) (x : R) :
  x <> 0 -> div a x = finite (smul (/ x) a).
Proof.
  intros Hx. unfold div, finite. simpl.
  rewrite !fdiv_nonzero by assumption.
  unfold Rdiv. rewrite !(Rmult_comm _ (/ x)). reflexivity.
Qed.

Lemma div_zero_zero : div zero 0 = all_nan.
Proof. unfold div, all_nan. simpl. rewrite fdiv_0_0. reflexivity. Qed.

Lemma finite_inj (a b : MV) : finite a = finite b -> a = b.
Proof.
  unfold finite. intros H. injection H as H0 H1 H2 H3 H12 H13 H23 H123.
  apply mv_eq; assumption.
Qed.

(* ------------------------------------------------------------------ *)
(** * 3x3 matrices *)

Lemma is_3x3_mat3 (a b c d e f g h i : R) : is_3x3 (mat3 a b c d e f g h i).
Proof. split; [reflexivity|]. repeat constructor. Qed.

Lemma is_3x3_inv (M : Matrix) :
  is_3x3 M -> exists a b c d e f g h i, M = mat3 a b c d e f g h i.
Proof.
  intros [Hlen Hrows].
  destruct M as [|r0 [|r1 [|r2 [|]]]]; try discriminate.
  inversion Hrows as [|? ? H0 Hrows1]; subst.
  inversion Hrows1 as [|? ? H1 Hrows2]; subst.
  inversion Hrows2 as [|? ? H2 _]; subst.
  destruct r0 as [|a [|b [|c [|]]]]; try discriminate.
  destruct r1 as [|d [|e [|f [|]]]]; try discriminate.
  destruct r2 as [|g [|h [|i [|]]]]; try discriminate.
  exists a, b, c, d, e, f, g, h, i. reflexivity.
Qed.

(** The six equations of orthogonality and the determinant of a rotation
    matrix given by its entries. *)
Lemma is_rotation_mat3 (a b c d e f g h i : R) :
  is_rotation (mat3 a b c d e f g h i) <->
  (a * a + d * d + g * g = 1 /\ b * b + e * e + h * h = 1 /\
   c * c + f * f + i * i = 1 /\
   a * b + d * e + g * h = 0 /\ a * c + d * f + g * i = 0 /\
   b * c + e * f + h * i = 0) /\
  a * (e * i - f * h) - b * (d * i - f * g) + c * (d * h - e * g) = 1.
Proof.
  unfold is_rotation, is_orthogonal, det, entry, delta. split.
  - intros (_ & Ho & Hd). split; [|exact Hd].
    pose proof (Ho 0%nat 0%nat ltac:(lia) ltac:(lia)) as H00.
    pose proof (Ho 1%nat 1%nat ltac:(lia) ltac:(lia)) as H11.
    pose proof (Ho 2%nat 2%nat ltac:(lia) ltac:(lia)) as H22.
    pose proof (Ho 0%nat 1%nat ltac:(lia) ltac:(lia)) as H01.
    pose proof (Ho 0%nat 2%nat ltac:(lia) ltac:(lia)) as H02.
    pose proof (Ho 1%nat 2%nat ltac:(lia) ltac:(lia)) as H12.
    simpl in *. repeat split; assumption.
  - intros ((H00 & H11 & H22 & H01 & H02 & H12) & Hd).
    split; [apply is_3x3_mat3|]. split; [|exact Hd].
    intros [|[|[|x]]] [|[|[|y]]] Hx Hy; simpl; try lia; lra.
Qed.

(* ------------------------------------------------------------------ *)
(** * The matrix-to-rotor cells on a 3x3 matrix *)

Lemma matrixToFrame_mat3 (a b c d e f g h i : R) :
  matrixToFrame (mat3 a b c d e f g h i) =
  Ok [add (add (smul a e1) (smul d e2)) (smul g e3);
      add (add (smul b e1) (smul e e2)) (smul h e3);
      add (add (smul c e1) (smul f e2)) (smul i e3)].
Proof. reflexivity. Qed.

Lemma rotorSum_mat3 (a b c d e f g h i : R) :
  rotorSum [add (add (smul a e1) (smul d e2)) (smul g e3);
            add (add (smul b e1) (smul e e2)) (smul h e3);
            add (add (smul c e1) (smul f e2)) (smul i e3)]
  = closedSum a b c d e f g h i.
Proof. unfold rotorSum, py_sum, closedSum. mv_ring. Qed.

Lemma rotorSum_spec_mat3 (a b c d e f g h i : R) :
  rotorSum_spec (mat3 a b c d e f g h i) = closedSum a b c d e f g h i.
Proof. unfold rotorSum_spec, columnFrame_spec, closedSum, entry. mv_ring. Qed.

Lemma matrixToRotor_mat3 (a b c d e f g h i : R) :
  matrixToRotor (mat3 a b c d e f g h i) =
  Ok (div (closedSum a b c d e f g h i) (mag (closedSum a b c d e f g h i))).
Proof.
  unfold matrixToRotor. rewrite matrixToFrame_mat3. unfold bind.
  rewrite rotorSum_mat3. reflexivity.
Qed.

Lemma mag2_closedSum (a b c d e f g h i : R) :
  mag2 (closedSum a b c d e f g h i) =
  (1 + (a + e + i)) * (1 + (a + e + i))
  + (d - b) * (d - b) + (g - c) * (g - c) + (h - f) * (h - f).
Proof. rewrite mag2_squares. simpl. ring. Qed.

(** For a rotation matrix the squared magnitude of the sum is
    [4 (1 + trace)]. *)
Lemma mag2_closedSum_rotation (a b c d e f g h i : R) :
  is_rotation (mat3 a b c d e f g h i) ->
  mag2 (closedSum a b c d e f g h i) = 4 * (1 + (a + e + i)).
Proof.
  intros Hrot. apply is_rotation_mat3 in Hrot.
  destruct Hrot as ((H00 & H11 & H22 & H01 & H02 & H12) & Hd).
  rewrite mag2_closedSum. nsatz.
Qed.

Lemma trace_mat3 (a b c d e f g h i : R) :
  trace (mat3 a b c d e f g h i) = a + e + i.
Proof. reflexivity. Qed.

(* ------------------------------------------------------------------ *)
(** * Vectors, the inner product and [float()] *)

Lemma is_vector_inv (a : MV) :
  is_vector a -> a = mkMV 0 (c1 a) (c2 a) (c3 a) 0 0 0 0.
Proof.
  intros (H0 & H12 & H13 & H23 & H123).
  apply mv_eq; simpl; assumption || reflexivity.
Qed.

Lemma is_vector_basis : Forall is_vector canonical.
Proof. repeat constructor. Qed.

Lemma dot_vectors (a b : MV) :
  is_vector a -> is_vector b ->
  dot a b = c1 a * c1 b + c2 a * c2 b + c3 a * c3 b.
Proof.
  intros Ha Hb. rewrite (is_vector_inv a Ha), (is_vector_inv b Hb).
  unfold dot. simpl. ring.
Qed.

(** On vectors the inner product is the scalar part of the geometric
    product, and nothing else. *)
Lemma inner_vectors (a b : MV) :
  is_vector a -> is_vector b -> inner a b = scalar (dot a b).
Proof.
  intros Ha Hb. rewrite (is_vector_inv a Ha), (is_vector_inv b Hb).
  unfold inner, dot. mv_ring.
Qed.

Lemma to_float_scalar (x : R) : to_float (scalar x) = Ok x.
Proof.
  unfold to_float. destruct (is_scalar_dec (scalar x)) as [_|H].
  - reflexivity.
  - exfalso. apply H. repeat split.
Qed.

Lemma to_float_inner_vectors (a b : MV) :
  is_vector a -> is_vector b -> to_float (inner a b) = Ok (dot a b).
Proof. intros Ha Hb. rewrite inner_vectors by assumption. apply to_float_scalar. Qed.

Lemma length3_inv {A : Type} (l : list A) :
  length l = 3%nat -> exists x y z, l = [x; y; z].
Proof.
  destruct l as [|x [|y [|z [|]]]]; try discriminate.
  intros _. exists x, y, z. reflexivity.
Qed.

Lemma Forall3_inv {A : Type} (P : A -> Prop) (x y z : A) :
  Forall P [x; y; z] -> P x /\ P y /\ P z.
Proof.
  intros H. inversion H as [|? ? Hx H1]; subst.
  inversion H1 as [|? ? Hy H2]; subst.
  inversion H2 as [|? ? Hz _]; subst. auto.
Qed.

(** The matrix of two triples of vectors. *)
Lemma frameToMatrix_vectors (a0 a1 a2 b0 b1 b2 : MV) :
  Forall is_vector [a0; a1; a2] -> Forall is_vector [b0; b1; b2] ->
  frameToMatrix [a0; a1; a2] [b0; b1; b2] =
  Ok (mat3 (dot b0 a0) (dot b0 a1) (dot b0 a2)
           (dot b1 a0) (dot b1 a1) (dot b1 a2)
           (dot b2 a0) (dot b2 a1) (dot b2 a2)).
Proof.
  intros HA HB.
  apply Forall3_inv in HA. destruct HA as (Ha0 & Ha1 & Ha2).
  apply Forall3_inv in HB. destruct HB as (Hb0 & Hb1 & Hb2).
  unfold frameToMatrix. simpl.
  rewrite !to_float_inner_vectors by assumption.
  reflexivity.
Qed.

(* ------------------------------------------------------------------ *)
(** * Conjugation by an even multivector *)

Lemma sandwich_smul (k : R) (S a : MV) :
  gp (gp (smul k S) a) (reverse (smul k S)) =
  smul (k * k) (gp (gp S a) (reverse S)).
Proof. mv_ring. Qed.

Lemma is_even_inv (a : MV) :
  is_even a -> a = mkMV (c0 a) 0 0 0 (c12 a) (c13 a) (c23 a) 0.
Proof.
  intros (H1 & H2 & H3 & H123).
  apply mv_eq; simpl; assumption || reflexivity.
Qed.

Lemma sandwich_vector (S a : MV) :
  is_even S -> is_vector a -> is_vector (gp (gp S a) (reverse S)).
Proof.
  intros HS Ha. rewrite (is_even_inv S HS), (is_vector_inv a Ha).
  unfold is_vector. simpl. repeat split; ring.
Qed.

(** Conjugation by an even multivector scales every dot product by the
    square of its squared magnitude. *)
Lemma sandwich_dot (S a b : MV) :
  is_even S -> is_vector a -> is_vector b ->
  dot (gp (gp S a) (reverse S)) (gp (gp S b) (reverse S)) =
  mag2 S * mag2 S * dot a b.
Proof.
  intros HS Ha Hb.
  rewrite (is_even_inv S HS), (is_vector_inv a Ha), (is_vector_inv b Hb).
  unfold dot, mag2. simpl. ring.
Qed.

Lemma is_rotor_mag2 (S : MV) : is_rotor S -> mag2 S = 1.
Proof. intros [_ H]. unfold mag2. rewrite H. reflexivity. Qed.

Lemma rotateFrame_length (S : MV) (F : list MV) :
  length (rotateFrame S F) = length F.
Proof. unfold rotateFrame. apply length_map. Qed.

Lemma rotateFrame_nth (S : MV) (F : list MV) (i : nat) :
  (i < length F)%nat ->
  nth i (rotateFrame S F) zero = gp (gp S (nth i F zero)) (reverse S).
Proof.
  intros Hi. unfold rotateFrame.
  rewrite (nth_indep _ zero (gp (gp S zero) (reverse S)))
    by (rewrite length_map; exact Hi).
  apply (map_nth (fun a => gp (gp S a) (reverse S))).
Qed.

Lemma exp_blade_e12_even (t : R) : is_even (exp_blade t e12).
Proof. unfold is_even. simpl. repeat split; ring. Qed.

Lemma exp_blade_e23_even (t : R) : is_even (exp_blade t e23).
Proof. unfold is_even. simpl. repeat split; ring. Qed.

Lemma gp_even (a b : MV) : is_even a -> is_even b -> is_even (gp a b).
Proof.
  intros Ha Hb. rewrite (is_even_inv a Ha), (is_even_inv b Hb).
  unfold is_even. simpl. repeat split; ring.
Qed.

(** The magnitude is multiplicative on the even subalgebra. *)
Lemma mag2_gp_even (a b : MV) :
  is_even a -> is_even b -> mag2 (gp a b) = mag2 a * mag2 b.
Proof.
  intros Ha Hb. rewrite (is_even_inv a Ha), (is_even_inv b Hb).
  rewrite !mag2_squares. simpl. ring.
Qed.

Lemma cos2_sin2 (t : R) : cos t * cos t + sin t * sin t = 1.
Proof. pose proof (sin2_cos2 t) as H. unfold Rsqr in H. lra. Qed.

Lemma mag2_exp_blade_e12 (t : R) : mag2 (exp_blade t e12) = 1.
Proof. rewrite mag2_squares. simpl. pose proof (cos2_sin2 t). nra. Qed.

Lemma mag2_exp_blade_e23 (t : R) : mag2 (exp_blade t e23) = 1.
Proof. rewrite mag2_squares. simpl. pose proof (cos2_sin2 t). nra. Qed.

Lemma R_euler_even (phi theta psi : R) : is_even (R_euler phi theta psi).
Proof.
  unfold R_euler.
  repeat apply gp_even;
    apply exp_blade_e12_even || apply exp_blade_e23_even.
Qed.

Lemma mag2_R_euler (phi theta psi : R) : mag2 (R_euler phi theta psi) = 1.
Proof.
  unfold R_euler.
  rewrite !mag2_gp_even;
    try (repeat apply gp_even;
         apply exp_blade_e12_even || apply exp_blade_e23_even).
  rewrite !mag2_exp_blade_e12, mag2_exp_blade_e23. ring.
Qed.

(** For an even multivector the product with its reverse is the scalar
    [mag2]. *)
Lemma even_gp_reverse (a : MV) : is_even a -> gp a (reverse a) = scalar (mag2 a).
Proof.
  intros Ha. rewrite (is_even_inv a Ha). rewrite mag2_squares.
  apply mv_eq; simpl; ring.
Qed.

Lemma R_euler_is_rotor (phi theta psi : R) : is_rotor (R_euler phi theta psi).
Proof.
  split; [apply R_euler_even|].
  rewrite even_gp_reverse by apply R_euler_even.
  rewrite mag2_R_euler. reflexivity.
Qed.

(** The order of the factors matters: the two quarter-angle rotors in the
    planes [e12] and [e23] do not commute. *)
Lemma product_order_matters :
  gp (exp_blade (- (PI / 2)) e12) (exp_blade (- (PI / 2)) e23) <>
  gp (exp_blade (- (PI / 2)) e23) (exp_blade (- (PI / 2)) e12).
Proof.
  unfold exp_blade. rewrite cos_neg, sin_neg, cos_PI2, sin_PI2.
  intros H. apply (f_equal c13) in H. simpl in H. lra.
Qed.

(* ------------------------------------------------------------------ *)
(** * The sum of a rotation matrix conjugates the basis onto its rows *)


Lemma closedSum_sandwich (a b c d e f g h i : R) :
  is_rotation (mat3 a b c d e f g h i) ->
  let S := closedSum a b c d e f g h i in
  gp (gp S e1) (reverse S) = smul (mag2 S) (mkMV 0 a b c 0 0 0 0) /\
  gp (gp S e2) (reverse S) = smul (mag2 S) (mkMV 0 d e f 0 0 0 0) /\
  gp (gp S e3) (reverse S) = smul (mag2 S) (mkMV 0 g h i 0 0 0 0).
Proof.
  intros Hrot S.
  pose proof (mag2_closedSum_rotation _ _ _ _ _ _ _ _ _ Hrot) as Hm.
  fold S in Hm. rewrite Hm. clear Hm.
  apply is_rotation_mat3 in Hrot.
  destruct Hrot as ((H00 & H11 & H22 & H01 & H02 & H12) & Hd).
  unfold S, closedSum.
  repeat split; apply mv_eq; simpl; nsatz.
Qed.

(** The trace of a rotation matrix is at least -1. *)
Lemma rotation_trace_lower (a b c d e f g h i : R) :
  is_rotation (mat3 a b c d e f g h i) -> 0 <= 1 + (a + e + i).
Proof.
  intros Hrot.
  pose proof (mag2_closedSum_rotation _ _ _ _ _ _ _ _ _ Hrot) as Hm.
  pose proof (mag2_nonneg (closedSum a b c d e f g h i)) as Hpos.
  lra.
Qed.

(** The closed form is singular exactly on the rotations of trace -1, the
    half turns. *)
Lemma singular_iff_trace (M : Matrix) :
  is_rotation M -> (mag (rotorSum_spec M) = 0 <-> trace M = -1).
Proof.
  intros Hrot. destruct (is_3x3_inv M (proj1 Hrot))
    as (a & b & c & d & e & f & g & h & i & ->).
  rewrite rotorSum_spec_mat3, trace_mat3.
  pose proof (mag2_closedSum_rotation _ _ _ _ _ _ _ _ _ Hrot) as Hm.
  split.
  - intros H0. pose proof (mag_sqr (closedSum a b c d e f g h i)) as Hs.
    rewrite H0 in Hs. lra.
  - intros Ht. unfold mag. rewrite Hm.
    replace (4 * (1 + (a + e + i))) with 0 by lra. apply sqrt_0.
Qed.

(* ------------------------------------------------------------------ *)
(** * Concrete matrices and frames *)

Lemma half_turn_is_rotation : is_rotation half_turn_e3.
Proof. apply is_rotation_mat3. repeat split; ring. Qed.

Lemma quarter_turn_is_rotation : is_rotation quarter_turn_e3.
Proof. apply is_rotation_mat3. repeat split; ring. Qed.

Lemma double_identity_not_orthogonal : ~ is_orthogonal double_identity.
Proof.
  intros H. specialize (H 0%nat 0%nat ltac:(lia) ltac:(lia)).
  unfold double_identity, entry, delta in H. simpl in H. lra.
Qed.

Lemma mirror_is_improper : is_orthogonal mirror_e3 /\ det mirror_e3 = -1.
Proof.
  split.
  - intros [|[|[|x]]] [|[|[|y]]] Hx Hy;
      unfold mirror_e3, entry, delta; simpl; try lia; lra.
  - unfold det, mirror_e3, entry. simpl. ring.
Qed.

Lemma half_turn_singular : mag (rotorSum_spec half_turn_e3) = 0.
Proof.
  apply singular_iff_trace; [apply half_turn_is_rotation|].
  unfold half_turn_e3. rewrite trace_mat3. ring.
Qed.

Lemma quarter_turn_regular : mag (rotorSum_spec quarter_turn_e3) <> 0.
Proof.
  intros H. apply singular_iff_trace in H; [|apply quarter_turn_is_rotation].
  unfold quarter_turn_e3 in H. rewrite trace_mat3 in H. lra.
Qed.

Lemma canonical_is_frame : is_frame canonical.
Proof.
  split; [reflexivity|]. split; [apply is_vector_basis|].
  intros [|[|[|x]]] [|[|[|y]]] Hx Hy;
    unfold dot, delta; simpl in *; try lia; ring.
Qed.

Lemma e12_is_rotor : is_rotor e12.
Proof. split; [repeat split|mv_ring]. Qed.

Lemma scalar_2_not_rotor : ~ is_rotor (scalar 2).
Proof.
  intros [_ H]. apply (f_equal c0) in H. simpl in H. lra.
Qed.

Lemma Ok_not_raises {A : Type} (a : A) (e : exn) : ~ raises (Ok a) e.
Proof. unfold raises. discriminate. Qed.

Lemma matrixToRotor_returns (M : Matrix) :
  is_3x3 M -> matrixToRotor M = Ok (matrixToRotor_spec M).
Proof.
  intros H3. destruct (is_3x3_inv M H3)
    as (a & b & c & d & e & f & g & h & i & ->).
  rewrite matrixToRotor_mat3. unfold matrixToRotor_spec.
  rewrite rotorSum_spec_mat3. reflexivity.
Qed.

(* ------------------------------------------------------------------ *)
(** * Euler angles to rotor *)

(** C1.  [R_euler phi theta psi] is the geometric product [R1*R2*R3] of the
    elemental rotors [R1 = exp(-(phi/2) e12)], [R2 = exp(-(theta/2) e23)]
    and [R3 = exp(-(psi/2) e12)], multiplied from left to right, for all
    real angles; the product being associative, the grouping is free. *)
Theorem R_euler_product (phi theta psi : R) :
  R_euler phi theta psi = eulerToRotor_spec phi theta psi /\
  R_euler phi theta psi =
    gp (exp_blade (- (phi / 2)) e12)
       (gp (exp_blade (- (theta / 2)) e23) (exp_blade (- (psi / 2)) e12)).
Proof.
  assert (Hneg : forall x, - x / 2 = - (x / 2)) by (intros; field).
  unfold R_euler, eulerToRotor_spec. rewrite !Hneg.
  split; [reflexivity|apply gp_assoc].
Qed.

(** C5.  For all real angles the rotor of [R_euler] has magnitude 1: the
    invariant holds exactly on the reals, hence within every tolerance. *)
Theorem R_euler_unit_norm (phi theta psi : R) :
  mag (R_euler phi theta psi) = 1 /\
  forall tol, 0 < tol -> Rabs (mag (R_euler phi theta psi) - 1) < tol.
Proof.
  assert (H : mag (R_euler phi theta psi) = 1).
  { unfold mag. rewrite mag2_R_euler. apply sqrt_1. }
  split; [exact H|].
  intros tol Htol. rewrite H.
  replace (1 - 1) with 0 by ring. rewrite Rabs_R0. exact Htol.
Qed.

Lemma R_euler_unit_norm_witness :
  0 < 1 / 2 /\ Rabs (mag (R_euler 1 2 3) - 1) < 1 / 2.
Proof.
  split; [lra|].
  apply (proj2 (R_euler_unit_norm 1 2 3)). lra.
Defined.

(** C9.  [R_euler 0 0 0] is the scalar rotor 1, all other coefficients
    zero, and rotating any frame with the rotor 1 returns the frame. *)
Theorem identity_laws :
  R_euler 0 0 0 = one /\ forall F : list MV, rotateFrame one F = F.
Proof.
  split.
  - unfold R_euler. replace (- 0 / 2) with 0 by field.
    rewrite !exp_blade_0. mv_ring.
  - intros F. unfold rotateFrame. induction F as [|a F IH]; simpl.
    + reflexivity.
    + rewrite IH. f_equal. clear. mv_ring.
Qed.

(* ------------------------------------------------------------------ *)
(** * Rotating a frame *)

(** C8.  For a unit rotor [S] and an orthonormal frame [F], the frame
    [S*a*~S] of [rotateFrame] is again an orthonormal frame.  The function
    builds a new list and reads its arguments only. *)
Theorem rotateFrame_orthonormal (S : MV) (F : list MV) :
  is_rotor S -> is_frame F -> is_frame (rotateFrame S F).
Proof.
  intros HS [Hlen [Hvec Hdot]].
  pose proof (is_rotor_mag2 S HS) as Hm. destruct HS as [Heven _].
  split; [rewrite rotateFrame_length; exact Hlen|]. split.
  - unfold rotateFrame. apply Forall_map.
    eapply Forall_impl; [|exact Hvec].
    intros a Ha. apply sandwich_vector; assumption.
  - intros i j Hi Hj. rewrite rotateFrame_length in Hi, Hj.
    rewrite !rotateFrame_nth by assumption.
    rewrite Forall_forall in Hvec.
    rewrite sandwich_dot; try assumption;
      try (apply Hvec, nth_In; assumption).
    rewrite Hm, Hdot by assumption. ring.
Qed.

Lemma rotateFrame_orthonormal_witness :
  is_rotor e12 /\ is_frame canonical /\ is_frame (rotateFrame e12 canonical).
Proof.
  split; [apply e12_is_rotor|]. split; [apply canonical_is_frame|].
  apply (rotateFrame_orthonormal e12 canonical).
  - apply e12_is_rotor.
  - apply canonical_is_frame.
Defined.

(* ------------------------------------------------------------------ *)
(** * Frame to matrix *)

(** C7.  For an original and a rotated triple of vectors, [frameToMatrix]
    returns the 3x3 matrix whose entry [(i,j)] is the dot product of
    [rotated[i]] and [original[j]]: the scalar part of their geometric
    product, that is the sum of the products of their coordinates. *)
Theorem frameToMatrix_entries (original rotated : list MV) :
  length original = 3%nat -> length rotated = 3%nat ->
  Forall is_vector original -> Forall is_vector rotated ->
  exists M,
    frameToMatrix original rotated = Ok M /\ is_3x3 M /\
    forall i j, (i < 3)%nat -> (j < 3)%nat ->
      entry M i j = c0 (gp (nth i rotated zero) (nth j original zero)) /\
      entry M i j =
        c1 (nth i rotated zero) * c1 (nth j original zero)
        + c2 (nth i rotated zero) * c2 (nth j original zero)
        + c3 (nth i rotated zero) * c3 (nth j original zero).
Proof.
  intros HlA HlB HA HB.
  destruct (length3_inv original HlA) as (a0 & a1 & a2 & ->).
  destruct (length3_inv rotated HlB) as (b0 & b1 & b2 & ->).
  eexists. split; [apply frameToMatrix_vectors; assumption|].
  split; [apply is_3x3_mat3|].
  apply Forall3_inv in HA. destruct HA as (Ha0 & Ha1 & Ha2).
  apply Forall3_inv in HB. destruct HB as (Hb0 & Hb1 & Hb2).
  intros [|[|[|x]]] [|[|[|y]]] Hx Hy; try lia;
    unfold entry, mat3; simpl nth;
    (split; [reflexivity|apply dot_vectors; assumption]).
Qed.

Lemma frameToMatrix_entries_witness :
  length canonical = 3%nat /\ length [e2; e3; e1] = 3%nat /\
  Forall is_vector canonical /\ Forall is_vector [e2; e3; e1] /\
  exists M,
    frameToMatrix canonical [e2; e3; e1] = Ok M /\ is_3x3 M /\
    forall i j, (i < 3)%nat -> (j < 3)%nat ->
      entry M i j = c0 (gp (nth i [e2; e3; e1] zero) (nth j canonical zero)) /\
      entry M i j =
        c1 (nth i [e2; e3; e1] zero) * c1 (nth j canonical zero)
        + c2 (nth i [e2; e3; e1] zero) * c2 (nth j canonical zero)
        + c3 (nth i [e2; e3; e1] zero) * c3 (nth j canonical zero).
Proof.
  split; [reflexivity|]. split; [reflexivity|].
  split; [repeat constructor|]. split; [repeat constructor|].
  apply (frameToMatrix_entries canonical [e2; e3; e1]).
  - reflexivity.
  - reflexivity.
  - repeat constructor.
  - repeat constructor.
Defined.

(* ------------------------------------------------------------------ *)
(** * Matrix to rotor *)

(** C2.  On a 3x3 matrix [M], [matrixToRotor] returns the result of the
    steps of the design document: the frame [B[k] = sum_i M[i,k] e_i] of
    the columns, the canonical basis [A], the sum
    [S = 1 + sum_k A[k]*B[k]], and [S] divided by the square root of the
    scalar part of [S * reverse S]. *)
Theorem matrixToRotor_steps (M : Matrix) :
  is_3x3 M ->
  matrixToFrame M = Ok (columnFrame_spec M) /\
  matrixToRotor M =
    Ok (div (rotorSum_spec M)
            (sqrt (c0 (gp (rotorSum_spec M) (reverse (rotorSum_spec M)))))).
Proof.
  intros H3. split.
  - destruct (is_3x3_inv M H3) as (a & b & c & d & e & f & g & h & i & ->).
    rewrite matrixToFrame_mat3.
    unfold columnFrame_spec, entry. simpl map.
    apply f_equal.
    repeat (apply f_equal2; [mv_ring|]). reflexivity.
  - rewrite matrixToRotor_returns by assumption. reflexivity.
Qed.

Lemma matrixToRotor_steps_witness :
  is_3x3 quarter_turn_e3 /\
  matrixToFrame quarter_turn_e3 = Ok (columnFrame_spec quarter_turn_e3) /\
  matrixToRotor quarter_turn_e3 =
    Ok (div (rotorSum_spec quarter_turn_e3)
            (sqrt (c0 (gp (rotorSum_spec quarter_turn_e3)
                          (reverse (rotorSum_spec quarter_turn_e3)))))).
Proof.
  split; [apply is_3x3_mat3|].
  apply (matrixToRotor_steps quarter_turn_e3). apply is_3x3_mat3.
Defined.

(** C3, as the notebook behaves.  [matrixToRotor] has no check of the
    denominator: on a 3x3 matrix whose sum [S] has magnitude zero, the
    division is carried out, every coefficient of the result is [nan], and
    no exception is raised. *)
Theorem matrixToRotor_degenerate (M : Matrix) :
  is_3x3 M -> mag (rotorSum_spec M) = 0 ->
  matrixToRotor M = Ok all_nan /\
  forall e, ~ raises (matrixToRotor M) e.
Proof.
  intros H3 H0.
  assert (Hr : matrixToRotor M = Ok all_nan).
  { rewrite matrixToRotor_returns by assumption.
    unfold matrixToRotor_spec. fold (mag2 (rotorSum_spec M)).
    fold (mag (rotorSum_spec M)). rewrite H0.
    rewrite (mag_zero_inv _ H0). apply f_equal, div_zero_zero. }
  split; [exact Hr|].
  intros e. rewrite Hr. apply Ok_not_raises.
Qed.

Lemma matrixToRotor_degenerate_witness :
  is_3x3 half_turn_e3 /\ mag (rotorSum_spec half_turn_e3) = 0 /\
  matrixToRotor half_turn_e3 = Ok all_nan /\
  forall e, ~ raises (matrixToRotor half_turn_e3) e.
Proof.
  split; [apply is_3x3_mat3|]. split; [apply half_turn_singular|].
  apply (matrixToRotor_degenerate half_turn_e3).
  - apply is_3x3_mat3.
  - apply half_turn_singular.
Defined.

(** C3, as stated, fails: the half turn about [e3] is a proper rotation
    with [|S| = 0], and the call returns a multivector of [nan] instead of
    raising [DegenerateRotationError]. *)
Lemma degenerate_error_counterexample :
  is_rotation half_turn_e3 /\ mag (rotorSum_spec half_turn_e3) = 0 /\
  matrixToRotor half_turn_e3 = Ok all_nan /\
  ~ raises (matrixToRotor half_turn_e3) DegenerateRotationError.
Proof.
  assert (H : matrixToRotor half_turn_e3 = Ok all_nan).
  { unfold half_turn_e3. rewrite matrixToRotor_mat3.
    pose proof half_turn_singular as H0. unfold half_turn_e3 in H0.
    rewrite rotorSum_spec_mat3 in H0. rewrite H0.
    rewrite (mag_zero_inv _ H0). apply f_equal, div_zero_zero. }
  split; [apply half_turn_is_rotation|]. split; [apply half_turn_singular|].
  split; [exact H|]. rewrite H. apply Ok_not_raises.
Qed.

(* ------------------------------------------------------------------ *)
(** * From the matrix to the rotor and back *)

Lemma mat3_ext (a b c d e f g h i a' b' c' d' e' f' g' h' i' : R) :
  a = a' -> b = b' -> c = c' -> d = d' -> e = e' -> f = f' ->
  g = g' -> h = h' -> i = i' ->
  mat3 a b c d e f g h i = mat3 a' b' c' d' e' f' g' h' i'.
Proof. intros; subst; reflexivity. Qed.

(** The matrix of the frame of the rows of a matrix, against the canonical
    basis, is the matrix. *)
Lemma frameToMatrix_rows (a b c d e f g h i : R) :
  frameToMatrix canonical
    [mkMV 0 a b c 0 0 0 0; mkMV 0 d e f 0 0 0 0; mkMV 0 g h i 0 0 0 0]
  = Ok (mat3 a b c d e f g h i).
Proof.
  unfold canonical. rewrite frameToMatrix_vectors.
  - apply f_equal, mat3_ext; unfold dot; simpl; ring.
  - apply is_vector_basis.
  - repeat constructor.
Qed.

Lemma smul_smul_cancel (k m : R) (a : MV) :
  k * m = 1 -> smul k (smul m a) = a.
Proof.
  intros H. apply mv_eq; simpl; rewrite <- Rmult_assoc, H; ring.
Qed.

Lemma rotation_regular_mag (a b c d e f g h i : R) :
  is_rotation (mat3 a b c d e f g h i) -> a + e + i <> -1 ->
  mag (closedSum a b c d e f g h i) <> 0.
Proof.
  intros Hrot Htr H0.
  pose proof (mag_sqr (closedSum a b c d e f g h i)) as Hs.
  rewrite H0, (mag2_closedSum_rotation _ _ _ _ _ _ _ _ _ Hrot) in Hs.
  lra.
Qed.

(** The rotor of a regular rotation matrix conjugates the canonical basis
    onto the rows of the matrix. *)
Lemma rotateFrame_closedSum (a b c d e f g h i : R) :
  is_rotation (mat3 a b c d e f g h i) ->
  mag (closedSum a b c d e f g h i) <> 0 ->
  let S := closedSum a b c d e f g h i in
  rotateFrame (smul (/ mag S) S) canonical =
  [mkMV 0 a b c 0 0 0 0; mkMV 0 d e f 0 0 0 0; mkMV 0 g h i 0 0 0 0].
Proof.
  intros Hrot Hm S.
  destruct (closedSum_sandwich _ _ _ _ _ _ _ _ _ Hrot) as (E1 & E2 & E3).
  fold S in E1, E2, E3, Hm.
  assert (Hk : / mag S * / mag S * mag2 S = 1).
  { rewrite <- (mag_sqr S). field. exact Hm. }
  unfold rotateFrame, canonical. simpl map.
  rewrite !sandwich_smul, E1, E2, E3.
  rewrite !(smul_smul_cancel _ _ _ Hk). reflexivity.
Qed.

(** C4.  For a proper rotation matrix [M] that is not a half turn (its
    trace is not -1), [matrixToRotor] returns a finite rotor, and the matrix
    of the canonical frame rotated by that rotor is [M] again: equal on the
    reals, hence within every tolerance. *)
Theorem matrix_rotor_roundtrip (M : Matrix) :
  is_rotation M -> trace M <> -1 ->
  exists Rr,
    matrixToRotor M = Ok (finite Rr) /\
    frameToMatrix canonical (rotateFrame Rr canonical) = Ok M.
Proof.
  intros Hrot Htr.
  destruct (is_3x3_inv M (proj1 Hrot))
    as (a & b & c & d & e & f & g & h & i & ->).
  rewrite trace_mat3 in Htr.
  pose proof (rotation_regular_mag _ _ _ _ _ _ _ _ _ Hrot Htr) as Hm.
  exists (smul (/ mag (closedSum a b c d e f g h i))
               (closedSum a b c d e f g h i)).
  split.
  - rewrite matrixToRotor_mat3, div_nonzero by exact Hm. reflexivity.
  - rewrite (rotateFrame_closedSum _ _ _ _ _ _ _ _ _ Hrot Hm).
    apply frameToMatrix_rows.
Qed.

Lemma matrix_rotor_roundtrip_witness :
  is_rotation quarter_turn_e3 /\ trace quarter_turn_e3 <> -1 /\
  exists Rr,
    matrixToRotor quarter_turn_e3 = Ok (finite Rr) /\
    frameToMatrix canonical (rotateFrame Rr canonical) = Ok quarter_turn_e3.
Proof.
  assert (Ht : trace quarter_turn_e3 <> -1).
  { unfold quarter_turn_e3. rewrite trace_mat3. lra. }
  split; [apply quarter_turn_is_rotation|]. split; [exact Ht|].
  apply (matrix_rotor_roundtrip quarter_turn_e3).
  - apply quarter_turn_is_rotation.
  - exact Ht.
Defined.

(** C10.  For a proper rotation matrix [M] with [|S| <> 0], the rotor of
    [matrixToRotor] has the scalar part [(1 + trace M) / |S|], which is not
    negative: of the two rotors of the rotation, the one returned has a
    scalar part at least 0. *)
Theorem matrixToRotor_scalar_nonneg (M : Matrix) :
  is_rotation M -> mag (rotorSum_spec M) <> 0 ->
  exists Rr,
    matrixToRotor M = Ok (finite Rr) /\
    c0 Rr = (1 + trace M) / mag (rotorSum_spec M) /\
    0 <= c0 Rr.
Proof.
  intros Hrot Hm.
  destruct (is_3x3_inv M (proj1 Hrot))
    as (a & b & c & d & e & f & g & h & i & ->).
  rewrite rotorSum_spec_mat3 in *. rewrite trace_mat3.
  set (S := closedSum a b c d e f g h i) in *.
  exists (smul (/ mag S) S).
  assert (Hc : c0 (smul (/ mag S) S) = (1 + (a + e + i)) / mag S).
  { unfold S at 2. simpl. unfold Rdiv. ring. }
  split; [|split].
  - rewrite matrixToRotor_mat3. fold S. rewrite div_nonzero by exact Hm.
    reflexivity.
  - exact Hc.
  - rewrite Hc. apply Rmult_le_pos.
    + apply (rotation_trace_lower _ _ _ _ _ _ _ _ _ Hrot).
    + apply Rlt_le, Rinv_0_lt_compat.
      pose proof (mag_nonneg S). lra.
Qed.

Lemma matrixToRotor_scalar_nonneg_witness :
  is_rotation quarter_turn_e3 /\ mag (rotorSum_spec quarter_turn_e3) <> 0 /\
  exists Rr,
    matrixToRotor quarter_turn_e3 = Ok (finite Rr) /\
    c0 Rr = (1 + trace quarter_turn_e3) / mag (rotorSum_spec quarter_turn_e3) /\
    0 <= c0 Rr.
Proof.
  split; [apply quarter_turn_is_rotation|].
  split; [apply quarter_turn_regular|].
  apply (matrixToRotor_scalar_nonneg quarter_turn_e3).
  - apply quarter_turn_is_rotation.
  - apply quarter_turn_regular.
Defined.

(* ------------------------------------------------------------------ *)
(** * No validation of the inputs *)

(** C6, as the notebook behaves.  Neither cell validates its input and
    neither raises [InvalidInputError]: on every 3x3 matrix, orthogonal or
    not, proper or not, [matrixToRotor] returns the quotient of the sum
    [S] by its magnitude; for every multivector [S], unit or not, and every
    list [F] of multivectors, [rotateFrame] returns the list of the
    [S*a*~S]. *)
Theorem no_input_validation (M : Matrix) (S : MV) (F : list MV) :
  is_3x3 M ->
  (returns (matrixToRotor M) /\ forall e, ~ raises (matrixToRotor M) e) /\
  length (rotateFrame S F) = length F /\
  forall i, (i < length F)%nat ->
    nth i (rotateFrame S F) zero = gp (gp S (nth i F zero)) (reverse S).
Proof.
  intros H3. split; [|split].
  - rewrite matrixToRotor_returns by assumption. split.
    + eexists. reflexivity.
    + intros e. apply Ok_not_raises.
  - apply rotateFrame_length.
  - intros i Hi. apply rotateFrame_nth, Hi.
Qed.

Lemma no_input_validation_witness :
  is_3x3 double_identity /\
  (returns (matrixToRotor double_identity) /\
   forall e, ~ raises (matrixToRotor double_identity) e) /\
  length (rotateFrame (scalar 2) canonical) = length canonical /\
  forall i, (i < length canonical)%nat ->
    nth i (rotateFrame (scalar 2) canonical) zero =
    gp (gp (scalar 2) (nth i canonical zero)) (reverse (scalar 2)).
Proof.
  split; [apply is_3x3_mat3|].
  apply (no_input_validation double_identity (scalar 2) canonical).
  apply is_3x3_mat3.
Defined.

(** C6, as stated, fails.  Twice the identity is not orthogonal and the
    reflection in the plane [e12] is improper, and [matrixToRotor] returns
    the rotor 1 for both; the scalar 2 is not a unit rotor and
    [rotateFrame] returns the canonical frame scaled by 4, which is not
    orthonormal. *)
Lemma invalid_input_counterexample :
  (~ is_orthogonal double_identity /\
   matrixToRotor double_identity = Ok (finite one) /\
   ~ raises (matrixToRotor double_identity) InvalidInputError) /\
  (det mirror_e3 <> 1 /\
   matrixToRotor mirror_e3 = Ok (finite one) /\
   ~ raises (matrixToRotor mirror_e3) InvalidInputError) /\
  (~ is_rotor (scalar 2) /\
   rotateFrame (scalar 2) canonical = [smul 4 e1; smul 4 e2; smul 4 e3] /\
   ~ is_frame (rotateFrame (scalar 2) canonical)).
Proof.
  assert (H7 : sqrt 49 = 7).
  { replace 49 with (7 * 7) by ring. apply sqrt_square. lra. }
  assert (H2 : sqrt 4 = 2).
  { replace 4 with (2 * 2) by ring. apply sqrt_square. lra. }
  assert (Hd : matrixToRotor double_identity = Ok (finite one)).
  { unfold double_identity. rewrite matrixToRotor_mat3.
    assert (Hm : mag (closedSum 2 0 0 0 2 0 0 0 2) = 7).
    { unfold mag. rewrite mag2_closedSum.
      replace (_ + _) with 49 by ring. exact H7. }
    rewrite Hm, div_nonzero by lra.
    apply f_equal, f_equal. apply mv_eq; simpl; field. }
  assert (Hr : matrixToRotor mirror_e3 = Ok (finite one)).
  { unfold mirror_e3. rewrite matrixToRotor_mat3.
    assert (Hm : mag (closedSum 1 0 0 0 1 0 0 0 (-1)) = 2).
    { unfold mag. rewrite mag2_closedSum.
      replace (_ + _) with 4 by ring. exact H2. }
    rewrite Hm, div_nonzero by lra.
    apply f_equal, f_equal. apply mv_eq; simpl; field. }
  split; [|split].
  - split; [apply double_identity_not_orthogonal|].
    split; [exact Hd|]. rewrite Hd. apply Ok_not_raises.
  - split; [destruct mirror_is_improper as [_ ->]; lra|].
    split; [exact Hr|]. rewrite Hr. apply Ok_not_raises.
  - split; [apply scalar_2_not_rotor|]. split.
    + unfold rotateFrame, canonical. simpl map.
      repeat (apply f_equal2; [mv_ring|]). reflexivity.
    + intros [_ [_ Hdot]].
      specialize (Hdot 0%nat 0%nat).
      rewrite rotateFrame_length in Hdot.
      specialize (Hdot ltac:(simpl; lia) ltac:(simpl; lia)).
      unfold dot, delta in Hdot. simpl in Hdot. lra.
Qed.

(* ------------------------------------------------------------------ *)
(** * More of the algebra *)

Lemma smul_smul (k m : R) (a : MV) : smul k (smul m a) = smul (k * m) a.
Proof. mv_ring. Qed.

Lemma smul_1 (a : MV) : smul 1 a = a.
Proof. mv_ring. Qed.

Lemma gp_neg_l (a b : MV) : gp (neg a) b = neg (gp a b).
Proof. mv_ring. Qed.

Lemma gp_neg_r (a b : MV) : gp a (neg b) = neg (gp a b).
Proof. mv_ring. Qed.

Lemma neg_neg (a : MV) : neg (neg a) = a.
Proof. mv_ring. Qed.

Lemma reverse_neg (a : MV) : reverse (neg a) = neg (reverse a).
Proof. mv_ring. Qed.

Lemma reverse_smul (k : R) (a : MV) : reverse (smul k a) = smul k (reverse a).
Proof. mv_ring. Qed.

Lemma mag2_reverse (a : MV) : mag2 (reverse a) = mag2 a.
Proof. rewrite !mag2_squares. simpl. ring. Qed.

Lemma mag_smul (k : R) (a : MV) : mag (smul k a) = Rabs k * mag a.
Proof.
  unfold mag. replace (mag2 (smul k a)) with (Rsqr k * mag2 a).
  - rewrite sqrt_mult; [|apply Rle_0_sqr|apply mag2_nonneg].
    rewrite sqrt_Rsqr_abs. reflexivity.
  - rewrite !mag2_squares. unfold Rsqr. simpl. ring.
Qed.

Lemma mag_of_mag2_1 (a : MV) : mag2 a = 1 -> mag a = 1.
Proof. intros H. unfold mag. rewrite H. apply sqrt_1. Qed.

Lemma even_reverse_gp (a : MV) :
  is_even a -> gp (reverse a) a = scalar (mag2 a).
Proof.
  intros Ha. rewrite (is_even_inv a Ha). rewrite mag2_squares.
  apply mv_eq; simpl; ring.
Qed.

Lemma rotor_reverse_l (S : MV) : is_rotor S -> gp (reverse S) S = one.
Proof.
  intros HS. rewrite even_reverse_gp by apply HS.
  rewrite (is_rotor_mag2 S HS). reflexivity.
Qed.

Lemma even_unit_is_rotor (S : MV) : is_even S -> mag2 S = 1 -> is_rotor S.
Proof.
  intros He Hm. split; [exact He|].
  rewrite even_gp_reverse by exact He. rewrite Hm. reflexivity.
Qed.

Lemma exp_blade_e12_rotor (t : R) : is_rotor (exp_blade t e12).
Proof.
  apply even_unit_is_rotor;
    [apply exp_blade_e12_even|apply mag2_exp_blade_e12].
Qed.

Lemma exp_blade_e23_rotor (t : R) : is_rotor (exp_blade t e23).
Proof.
  apply even_unit_is_rotor;
    [apply exp_blade_e23_even|apply mag2_exp_blade_e23].
Qed.

Lemma gp_rotor (a b : MV) : is_rotor a -> is_rotor b -> is_rotor (gp a b).
Proof.
  intros Ha Hb. apply even_unit_is_rotor.
  - apply gp_even; [apply Ha|apply Hb].
  - rewrite mag2_gp_even by (apply Ha || apply Hb).
    rewrite (is_rotor_mag2 a Ha), (is_rotor_mag2 b Hb). ring.
Qed.

Lemma reverse_even (a : MV) : is_even a -> is_even (reverse a).
Proof.
  intros (H1 & H2 & H3 & H123). repeat split; simpl; try assumption.
  rewrite H123. ring.
Qed.

Lemma rotor_3_4_is_rotor : is_rotor rotor_3_4.
Proof.
  apply even_unit_is_rotor; [repeat split|].
  rewrite mag2_squares. unfold rotor_3_4. simpl. field.
Qed.

Lemma neg_rotor (S : MV) : is_rotor S -> is_rotor (neg S).
Proof.
  intros HS. pose proof (is_rotor_mag2 S HS) as Hm. destruct HS as [He _].
  apply even_unit_is_rotor.
  - destruct He as (H1 & H2 & H3 & H123).
    repeat split; simpl; rewrite ?H1, ?H2, ?H3, ?H123; ring.
  - rewrite mag2_squares in *. simpl. lra.
Qed.

(** Conjugation by a rotor commutes with the exponential of a blade. *)
Lemma exp_blade_conj (S B : MV) (t : R) :
  gp S (reverse S) = one ->
  exp_blade t (gp (gp S B) (reverse S)) =
  gp (gp S (exp_blade t B)) (reverse S).
Proof.
  intros HS. unfold exp_blade.
  rewrite gp_add_r, gp_add_l, gp_smul_r, gp_smul_l.
  replace (gp (gp S (scalar (cos t))) (reverse S))
    with (smul (cos t) (gp S (reverse S))) by mv_ring.
  rewrite HS. f_equal. mv_ring.
Qed.

Lemma cos_double (t : R) :
  cos t = cos (t / 2) * cos (t / 2) - sin (t / 2) * sin (t / 2).
Proof. replace t with (t / 2 + t / 2) at 1 by field. apply cos_plus. Qed.

Lemma sin_double (t : R) : sin t = 2 * (sin (t / 2) * cos (t / 2)).
Proof.
  replace t with (t / 2 + t / 2) at 1 by field. rewrite sin_plus. ring.
Qed.

(* ------------------------------------------------------------------ *)
(** * The matrix of an even multivector *)

Lemma rotorToMatrix_even (S : MV) :
  is_even S ->
  rotorToMatrix S = Ok (quaternionMatrix (c0 S) (c12 S) (c13 S) (c23 S)).
Proof.
  intros HS. unfold rotorToMatrix, rotateFrame. simpl map.
  rewrite frameToMatrix_vectors.
  - rewrite (is_even_inv S HS).
    apply f_equal, mat3_ext; unfold dot; simpl; ring.
  - apply is_vector_basis.
  - repeat constructor; apply sandwich_vector; try assumption; repeat split.
Qed.

Lemma is_3x3_quaternionMatrix (w x y z : R) :
  is_3x3 (quaternionMatrix w x y z).
Proof. apply is_3x3_mat3. Qed.

Lemma quaternionMatrix_rotation (w x y z : R) :
  w * w + x * x + y * y + z * z = 1 ->
  is_rotation (quaternionMatrix w x y z).
Proof.
  intros H. unfold quaternionMatrix. apply is_rotation_mat3.
  repeat split; nsatz.
Qed.

(** The sum of the matrix of a rotor is the rotor, scaled by four times its
    scalar part. *)
Lemma rotorSum_quaternionMatrix (S : MV) :
  is_even S -> mag2 S = 1 ->
  rotorSum_spec (quaternionMatrix (c0 S) (c12 S) (c13 S) (c23 S))
  = smul (4 * c0 S) S.
Proof.
  intros HS H. unfold quaternionMatrix. rewrite rotorSum_spec_mat3.
  rewrite mag2_squares in H.
  destruct HS as (H1 & H2 & H3 & H123). rewrite H1, H2, H3, H123 in H.
  unfold closedSum. apply mv_eq; simpl; rewrite ?H1, ?H2, ?H3, ?H123; nsatz.
Qed.

Lemma matrixToRotor_div (M : Matrix) :
  is_3x3 M ->
  matrixToRotor M = Ok (div (rotorSum_spec M) (mag (rotorSum_spec M))).
Proof. intros H. rewrite matrixToRotor_returns by assumption. reflexivity. Qed.

Lemma matrixToRotor_quaternionMatrix (S : MV) :
  is_rotor S -> c0 S <> 0 ->
  matrixToRotor (quaternionMatrix (c0 S) (c12 S) (c13 S) (c23 S)) =
  Ok (finite (smul (c0 S / Rabs (c0 S)) S)).
Proof.
  intros HS Hw. pose proof (is_rotor_mag2 S HS) as Hm. destruct HS as [He _].
  rewrite matrixToRotor_div by apply is_3x3_quaternionMatrix.
  rewrite rotorSum_quaternionMatrix by assumption.
  rewrite mag_smul, (mag_of_mag2_1 S Hm), Rmult_1_r.
  assert (Ha : Rabs (4 * c0 S) = 4 * Rabs (c0 S)).
  { rewrite Rabs_mult, (Rabs_pos_eq 4) by lra. reflexivity. }
  assert (Hn : Rabs (c0 S) <> 0) by (apply Rabs_no_R0; exact Hw).
  rewrite Ha, div_nonzero by lra.
  rewrite smul_smul. apply f_equal, f_equal, f_equal2; [|reflexivity].
  field. exact Hn.
Qed.

Lemma quaternionMatrix_gp (S T : MV) :
  is_even S -> is_even T ->
  quaternionMatrix (c0 (gp S T)) (c12 (gp S T)) (c13 (gp S T)) (c23 (gp S T))
  = matmul3 (quaternionMatrix (c0 T) (c12 T) (c13 T) (c23 T))
            (quaternionMatrix (c0 S) (c12 S) (c13 S) (c23 S)).
Proof.
  intros HS HT. rewrite (is_even_inv S HS), (is_even_inv T HT).
  unfold matmul3, quaternionMatrix.
  apply mat3_ext; unfold row_col, entry; simpl; ring.
Qed.

Lemma quaternionMatrix_e12 (t : R) :
  quaternionMatrix (c0 (exp_blade (- t / 2) e12))
                   (c12 (exp_blade (- t / 2) e12))
                   (c13 (exp_blade (- t / 2) e12))
                   (c23 (exp_blade (- t / 2) e12)) = rows_e12 t.
Proof.
  simpl. replace (- t / 2) with (- (t / 2)) by field.
  rewrite cos_neg, sin_neg. unfold quaternionMatrix, rows_e12.
  rewrite (cos_double t), (sin_double t).
  pose proof (cos2_sin2 (t / 2)).
  apply mat3_ext; nra.
Qed.

Lemma quaternionMatrix_e23 (t : R) :
  quaternionMatrix (c0 (exp_blade (- t / 2) e23))
                   (c12 (exp_blade (- t / 2) e23))
                   (c13 (exp_blade (- t / 2) e23))
                   (c23 (exp_blade (- t / 2) e23)) = rows_e23 t.
Proof.
  simpl. replace (- t / 2) with (- (t / 2)) by field.
  rewrite cos_neg, sin_neg. unfold quaternionMatrix, rows_e23.
  rewrite (cos_double t), (sin_double t).
  pose proof (cos2_sin2 (t / 2)).
  apply mat3_ext; nra.
Qed.

(* ------------------------------------------------------------------ *)
(** * From the rotor to the matrix and back *)

(** X1.  The matrix cells applied to an even multivector
    [w + x e12 + y e13 + z e23] return the matrix of the quaternion
    [(w, x, y, z)], whose rows are the rotated basis vectors. *)
Theorem rotorToMatrix_quaternion (S : MV) :
  is_even S ->
  rotorToMatrix S = Ok (quaternionMatrix (c0 S) (c12 S) (c13 S) (c23 S)) /\
  rotateFrame S canonical =
    [mkMV 0 (entry (quaternionMatrix (c0 S) (c12 S) (c13 S) (c23 S)) 0 0)
            (entry (quaternionMatrix (c0 S) (c12 S) (c13 S) (c23 S)) 0 1)
            (entry (quaternionMatrix (c0 S) (c12 S) (c13 S) (c23 S)) 0 2)
            0 0 0 0;
     mkMV 0 (entry (quaternionMatrix (c0 S) (c12 S) (c13 S) (c23 S)) 1 0)
            (entry (quaternionMatrix (c0 S) (c12 S) (c13 S) (c23 S)) 1 1)
            (entry (quaternionMatrix (c0 S) (c12 S) (c13 S) (c23 S)) 1 2)
            0 0 0 0;
     mkMV 0 (entry (quaternionMatrix (c0 S) (c12 S) (c13 S) (c23 S)) 2 0)
            (entry (quaternionMatrix (c0 S) (c12 S) (c13 S) (c23 S)) 2 1)
            (entry (quaternionMatrix (c0 S) (c12 S) (c13 S) (c23 S)) 2 2)
            0 0 0 0].
Proof.
  intros He. split; [apply rotorToMatrix_even, He|].
  rewrite (is_even_inv S He). unfold rotateFrame, canonical. simpl map.
  unfold quaternionMatrix, entry. simpl nth.
  repeat (apply f_equal2; [mv_ring|]). reflexivity.
Qed.

Lemma rotorToMatrix_quaternion_witness :
  is_even rotor_3_4 /\
  rotorToMatrix rotor_3_4 =
    Ok (quaternionMatrix (c0 rotor_3_4) (c12 rotor_3_4) (c13 rotor_3_4)
                         (c23 rotor_3_4)).
Proof.
  split; [apply rotor_3_4_is_rotor|].
  apply (proj1 (rotorToMatrix_quaternion rotor_3_4 (proj1 rotor_3_4_is_rotor))).
Defined.

(** X2.  The matrix of a unit rotor is a proper rotation matrix:
    orthogonal and of determinant +1. *)
Theorem rotor_matrix_is_rotation (S : MV) :
  is_rotor S -> exists M, rotorToMatrix S = Ok M /\ is_rotation M.
Proof.
  intros HS. pose proof (is_rotor_mag2 S HS) as Hm. destruct HS as [He _].
  eexists. split; [apply rotorToMatrix_even, He|].
  apply quaternionMatrix_rotation.
  rewrite mag2_squares in Hm. destruct He as (H1 & H2 & H3 & H123).
  rewrite H1, H2, H3, H123 in Hm. lra.
Qed.

Lemma rotor_matrix_is_rotation_witness :
  is_rotor rotor_3_4 /\
  exists M, rotorToMatrix rotor_3_4 = Ok M /\ is_rotation M.
Proof.
  split; [apply rotor_3_4_is_rotor|].
  apply (rotor_matrix_is_rotation rotor_3_4). apply rotor_3_4_is_rotor.
Defined.

(** X3.  Rotor to matrix to rotor: for a unit rotor with a positive scalar
    part, the matrix-to-rotor cells applied to its matrix return the rotor
    itself. *)
Theorem rotor_matrix_rotor (S : MV) :
  is_rotor S -> 0 < c0 S ->
  exists M, rotorToMatrix S = Ok M /\ matrixToRotor M = Ok (finite S).
Proof.
  intros HS Hw. eexists. split.
  - apply rotorToMatrix_even, HS.
  - rewrite matrixToRotor_quaternionMatrix by (assumption || lra).
    rewrite Rabs_pos_eq by lra.
    replace (c0 S / c0 S) with 1 by (field; lra).
    rewrite smul_1. reflexivity.
Qed.

Lemma rotor_3_4_positive : 0 < c0 rotor_3_4.
Proof. unfold rotor_3_4. simpl. lra. Qed.

Lemma rotor_matrix_rotor_witness :
  is_rotor rotor_3_4 /\ 0 < c0 rotor_3_4 /\
  exists M, rotorToMatrix rotor_3_4 = Ok M /\
            matrixToRotor M = Ok (finite rotor_3_4).
Proof.
  split; [apply rotor_3_4_is_rotor|]. split; [apply rotor_3_4_positive|].
  apply (rotor_matrix_rotor rotor_3_4).
  - apply rotor_3_4_is_rotor.
  - apply rotor_3_4_positive.
Defined.

(** X4.  For a unit rotor with a negative scalar part, the matrix-to-rotor
    cells applied to its matrix return the opposite rotor, which encodes the
    same rotation. *)
Theorem rotor_matrix_rotor_opposite (S : MV) :
  is_rotor S -> c0 S < 0 ->
  exists M, rotorToMatrix S = Ok M /\ matrixToRotor M = Ok (finite (neg S)).
Proof.
  intros HS Hw. eexists. split.
  - apply rotorToMatrix_even, HS.
  - rewrite matrixToRotor_quaternionMatrix by (assumption || lra).
    rewrite Rabs_left by lra.
    replace (c0 S / - c0 S) with (-1) by (field; lra).
    reflexivity.
Qed.

Lemma neg_rotor_3_4_negative : c0 (neg rotor_3_4) < 0.
Proof. unfold rotor_3_4. simpl. lra. Qed.

Lemma rotor_matrix_rotor_opposite_witness :
  is_rotor (neg rotor_3_4) /\ c0 (neg rotor_3_4) < 0 /\
  exists M, rotorToMatrix (neg rotor_3_4) = Ok M /\
            matrixToRotor M = Ok (finite (neg (neg rotor_3_4))).
Proof.
  split; [apply neg_rotor, rotor_3_4_is_rotor|].
  split; [apply neg_rotor_3_4_negative|].
  apply (rotor_matrix_rotor_opposite (neg rotor_3_4)).
  - apply neg_rotor, rotor_3_4_is_rotor.
  - apply neg_rotor_3_4_negative.
Defined.

(** X5.  For a unit rotor without scalar part, a half turn, the sum of its
    matrix vanishes and the matrix-to-rotor cells return [nan] in every
    coefficient. *)
Theorem rotor_matrix_rotor_half_turn (S : MV) :
  is_rotor S -> c0 S = 0 ->
  exists M, rotorToMatrix S = Ok M /\ matrixToRotor M = Ok all_nan.
Proof.
  intros HS Hw. pose proof (is_rotor_mag2 S HS) as Hm.
  eexists. split.
  - apply rotorToMatrix_even, HS.
  - rewrite matrixToRotor_div by apply is_3x3_quaternionMatrix.
    rewrite rotorSum_quaternionMatrix by (apply HS || assumption).
    rewrite Hw. replace (smul (4 * 0) S) with zero by mv_ring.
    replace (mag zero) with 0.
    + apply f_equal, div_zero_zero.
    + unfold mag. rewrite mag2_squares. simpl.
      replace (_ + _) with 0 by ring. symmetry. apply sqrt_0.
Qed.

Lemma rotor_matrix_rotor_half_turn_witness :
  is_rotor e12 /\ c0 e12 = 0 /\
  exists M, rotorToMatrix e12 = Ok M /\ matrixToRotor M = Ok all_nan.
Proof.
  split; [apply e12_is_rotor|]. split; [reflexivity|].
  apply (rotor_matrix_rotor_half_turn e12).
  - apply e12_is_rotor.
  - reflexivity.
Defined.

(** X6.  The frame that the cell [B = [M[0,0]*e1 + ...]] rebuilds from the
    columns of the matrix of an even multivector [S] is the canonical frame
    conjugated by the reverse of [S], not the frame of rows that the matrix
    was filled from. *)
Theorem matrix_columns_reverse_rotor (S : MV) :
  is_even S ->
  exists M, rotorToMatrix S = Ok M /\
            matrixToFrame M = Ok (rotateFrame (reverse S) canonical).
Proof.
  intros He. eexists. split; [apply rotorToMatrix_even, He|].
  unfold quaternionMatrix. rewrite matrixToFrame_mat3.
  rewrite (is_even_inv S He). unfold rotateFrame, canonical. simpl map.
  apply f_equal. repeat (apply f_equal2; [mv_ring|]). reflexivity.
Qed.

Lemma matrix_columns_reverse_rotor_witness :
  is_even rotor_3_4 /\
  exists M, rotorToMatrix rotor_3_4 = Ok M /\
            matrixToFrame M = Ok (rotateFrame (reverse rotor_3_4) canonical).
Proof.
  split; [apply rotor_3_4_is_rotor|].
  apply (matrix_columns_reverse_rotor rotor_3_4). apply rotor_3_4_is_rotor.
Defined.

(** X7.  The reverse of an even multivector has the transposed matrix. *)
Theorem rotorToMatrix_reverse (S : MV) :
  is_even S ->
  exists M, rotorToMatrix S = Ok M /\
            rotorToMatrix (reverse S) = Ok (transpose3 M).
Proof.
  intros He. eexists. split; [apply rotorToMatrix_even, He|].
  rewrite rotorToMatrix_even by (apply reverse_even, He).
  apply f_equal. unfold transpose3, quaternionMatrix, entry. simpl.
  apply mat3_ext; ring.
Qed.

Lemma rotorToMatrix_reverse_witness :
  is_even rotor_3_4 /\
  exists M, rotorToMatrix rotor_3_4 = Ok M /\
            rotorToMatrix (reverse rotor_3_4) = Ok (transpose3 M).
Proof.
  split; [apply rotor_3_4_is_rotor|].
  apply (rotorToMatrix_reverse rotor_3_4). apply rotor_3_4_is_rotor.
Defined.

(** X8.  The matrix of a product of even multivectors is the product of
    their matrices in the opposite order. *)
Theorem rotorToMatrix_compose (S T : MV) :
  is_even S -> is_even T ->
  exists MS MT,
    rotorToMatrix S = Ok MS /\ rotorToMatrix T = Ok MT /\
    rotorToMatrix (gp S T) = Ok (matmul3 MT MS).
Proof.
  intros HS HT.
  exists (quaternionMatrix (c0 S) (c12 S) (c13 S) (c23 S)),
         (quaternionMatrix (c0 T) (c12 T) (c13 T) (c23 T)).
  split; [apply rotorToMatrix_even, HS|].
  split; [apply rotorToMatrix_even, HT|].
  rewrite rotorToMatrix_even by (apply gp_even; assumption).
  rewrite quaternionMatrix_gp by assumption. reflexivity.
Qed.

Lemma rotorToMatrix_compose_witness :
  is_even e12 /\ is_even rotor_3_4 /\
  exists MS MT,
    rotorToMatrix e12 = Ok MS /\ rotorToMatrix rotor_3_4 = Ok MT /\
    rotorToMatrix (gp e12 rotor_3_4) = Ok (matmul3 MT MS).
Proof.
  split; [apply e12_is_rotor|]. split; [apply rotor_3_4_is_rotor|].
  apply (rotorToMatrix_compose e12 rotor_3_4).
  - apply e12_is_rotor.
  - apply rotor_3_4_is_rotor.
Defined.

(* ------------------------------------------------------------------ *)
(** * The Euler rotor *)

Lemma R_euler_components (phi theta psi : R) :
  R_euler phi theta psi =
  mkMV (cos (theta / 2) * cos ((phi + psi) / 2)) 0 0 0
       (- (cos (theta / 2) * sin ((phi + psi) / 2)))
       (sin (theta / 2) * sin ((phi - psi) / 2))
       (- (sin (theta / 2) * cos ((phi - psi) / 2)))
       0.
Proof.
  assert (Hneg : forall x, - x / 2 = - (x / 2)) by (intros; field).
  unfold R_euler, exp_blade. rewrite !Hneg.
  replace ((phi + psi) / 2) with (phi / 2 + psi / 2) by field.
  replace ((phi - psi) / 2) with (phi / 2 - psi / 2) by field.
  rewrite cos_plus, sin_plus, cos_minus, sin_minus, !cos_neg, !sin_neg.
  apply mv_eq; simpl; ring.
Qed.

(** X9.  The coefficients of the Euler rotor in closed form: the scalar
    [cos(theta/2) cos((phi+psi)/2)], on [e12]
    [- cos(theta/2) sin((phi+psi)/2)], on [e13]
    [sin(theta/2) sin((phi-psi)/2)], on [e23]
    [- sin(theta/2) cos((phi-psi)/2)], and no part of odd grade. *)
Theorem R_euler_closed_form (phi theta psi : R) :
  R_euler phi theta psi =
  add (add (add (scalar (cos (theta / 2) * cos ((phi + psi) / 2)))
                (smul (- (cos (theta / 2) * sin ((phi + psi) / 2))) e12))
           (smul (sin (theta / 2) * sin ((phi - psi) / 2)) e13))
      (smul (- (sin (theta / 2) * cos ((phi - psi) / 2))) e23).
Proof. rewrite R_euler_components. mv_ring. Qed.

Lemma reverse_exp_blade_e12 (t : R) :
  reverse (exp_blade t e12) = exp_blade (- t) e12.
Proof. unfold exp_blade. rewrite cos_neg, sin_neg. mv_ring. Qed.

Lemma reverse_exp_blade_e23 (t : R) :
  reverse (exp_blade t e23) = exp_blade (- t) e23.
Proof. unfold exp_blade. rewrite cos_neg, sin_neg. mv_ring. Qed.

(** X10.  The reverse of the Euler rotor is the Euler rotor of the negated
    angles in the opposite order, and it is its inverse on both sides. *)
Theorem R_euler_reverse (phi theta psi : R) :
  reverse (R_euler phi theta psi) = R_euler (- psi) (- theta) (- phi) /\
  gp (R_euler phi theta psi) (R_euler (- psi) (- theta) (- phi)) = one /\
  gp (R_euler (- psi) (- theta) (- phi)) (R_euler phi theta psi) = one.
Proof.
  assert (H : reverse (R_euler phi theta psi)
              = R_euler (- psi) (- theta) (- phi)).
  { unfold R_euler. rewrite !reverse_gp.
    rewrite !reverse_exp_blade_e12, reverse_exp_blade_e23.
    replace (- (- psi / 2)) with (- - psi / 2) by field.
    replace (- (- theta / 2)) with (- - theta / 2) by field.
    replace (- (- phi / 2)) with (- - phi / 2) by field.
    symmetry. apply gp_assoc. }
  split; [exact H|]. rewrite <- H.
  pose proof (R_euler_is_rotor phi theta psi) as Hr.
  split; [apply Hr|apply rotor_reverse_l, Hr].
Qed.

Lemma exp_blade_shift (t : R) (B : MV) :
  exp_blade (- (t + 2 * PI) / 2) B = neg (exp_blade (- t / 2) B).
Proof.
  unfold exp_blade.
  replace (- (t + 2 * PI) / 2) with (- t / 2 - PI) by field.
  rewrite cos_minus, sin_minus, cos_PI, sin_PI. mv_ring.
Qed.

(** X11.  Adding a full turn to one angle negates the rotor, and adding
    two full turns leaves it unchanged. *)
Theorem R_euler_full_turn (phi theta psi : R) :
  R_euler (phi + 2 * PI) theta psi = neg (R_euler phi theta psi) /\
  R_euler phi (theta + 2 * PI) psi = neg (R_euler phi theta psi) /\
  R_euler phi theta (psi + 2 * PI) = neg (R_euler phi theta psi) /\
  R_euler (phi + 4 * PI) theta psi = R_euler phi theta psi.
Proof.
  assert (H1 : forall a b c, R_euler (a + 2 * PI) b c = neg (R_euler a b c)).
  { intros. unfold R_euler. rewrite exp_blade_shift, !gp_neg_l. reflexivity. }
  repeat split.
  - apply H1.
  - unfold R_euler. rewrite exp_blade_shift, gp_neg_r, gp_neg_l. reflexivity.
  - unfold R_euler. rewrite exp_blade_shift, gp_neg_r. reflexivity.
  - replace (phi + 4 * PI) with (phi + 2 * PI + 2 * PI) by ring.
    rewrite !H1. apply neg_neg.
Qed.

(** X12.  With [theta = 0] the two rotations in the plane [e12] merge: the
    rotor depends on [phi + psi] only. *)
Theorem R_euler_gimbal (phi psi : R) :
  R_euler phi 0 psi = R_euler (phi + psi) 0 0.
Proof.
  rewrite !R_euler_components.
  replace (phi + psi + 0) with (phi + psi) by ring.
  replace (0 / 2) with 0 by field. rewrite sin_0, cos_0.
  apply mv_eq; simpl; ring.
Qed.

(** X13.  The derivation of the notebook: rotating by [phi] in the plane
    [e12], then by [theta] in the plane [e23] carried along by the first
    rotation, then by [psi] in the plane [e12] carried along by the first
    two, is the product of [R_euler] in the fixed planes. *)
Theorem R_euler_intrinsic (phi theta psi : R) :
  let Rphi := exp_blade (- phi / 2) e12 in
  let Rtheta := exp_blade (- theta / 2) (gp (gp Rphi e23) (reverse Rphi)) in
  let R2 := gp Rtheta Rphi in
  let Rpsi := exp_blade (- psi / 2) (gp (gp R2 e12) (reverse R2)) in
  gp Rtheta Rphi = gp Rphi (exp_blade (- theta / 2) e23) /\
  gp Rpsi (gp Rtheta Rphi) = R_euler phi theta psi.
Proof.
  intros Rphi Rtheta R2 Rpsi.
  pose proof (exp_blade_e12_rotor (- phi / 2)) as Hphi. fold Rphi in Hphi.
  assert (H2 : R2 = gp Rphi (exp_blade (- theta / 2) e23)).
  { unfold R2, Rtheta. rewrite exp_blade_conj by apply Hphi.
    rewrite gp_assoc, (rotor_reverse_l _ Hphi), gp_one_r. reflexivity. }
  split; [exact H2|].
  assert (Hr2 : is_rotor R2).
  { rewrite H2. apply gp_rotor; [exact Hphi|apply exp_blade_e23_rotor]. }
  fold R2. unfold Rpsi. rewrite exp_blade_conj by apply Hr2.
  rewrite gp_assoc, (rotor_reverse_l _ Hr2), gp_one_r.
  rewrite H2. reflexivity.
Qed.

(** X14.  The matrices of the elemental Euler rotors are the matrices of
    the plane rotations by the same angle. *)
Theorem elemental_matrices (t : R) :
  rotorToMatrix (R_euler t 0 0) = Ok (rows_e12 t) /\
  rotorToMatrix (R_euler 0 t 0) = Ok (rows_e23 t) /\
  rotorToMatrix (R_euler 0 0 t) = Ok (rows_e12 t).
Proof.
  assert (H0 : - 0 / 2 = 0) by field.
  repeat split; rewrite rotorToMatrix_even by apply R_euler_even;
    unfold R_euler; rewrite !H0, !exp_blade_0, ?gp_one_l, ?gp_one_r;
    apply f_equal.
  - apply quaternionMatrix_e12.
  - apply quaternionMatrix_e23.
  - apply quaternionMatrix_e12.
Qed.

(** X15.  The matrix of the Euler rotor is the product of the three plane
    rotation matrices, the one of [psi] on the left and the one of [phi] on
    the right. *)
Theorem euler_matrix_factorization (phi theta psi : R) :
  rotorToMatrix (R_euler phi theta psi) =
  Ok (matmul3 (rows_e12 psi) (matmul3 (rows_e23 theta) (rows_e12 phi))).
Proof.
  rewrite rotorToMatrix_even by apply R_euler_even.
  unfold R_euler.
  rewrite quaternionMatrix_gp;
    [|apply gp_even; [apply exp_blade_e12_even|apply exp_blade_e23_even]
     |apply exp_blade_e12_even].
  rewrite quaternionMatrix_gp
    by (apply exp_blade_e12_even || apply exp_blade_e23_even).
  rewrite (quaternionMatrix_e12 psi), (quaternionMatrix_e12 phi),
    (quaternionMatrix_e23 theta).
  reflexivity.
Qed.

(** X16.  The notebook from end to end: whenever the scalar part
    [cos(theta/2) cos((phi+psi)/2)] of the Euler rotor is positive, as for
    the angles [pi/4] of the notebook, the rotor of the last cell is the
    rotor of the first. *)
Theorem notebook_recovers_rotor (phi theta psi : R) :
  0 < cos (theta / 2) * cos ((phi + psi) / 2) ->
  notebook phi theta psi = Ok (finite (R_euler phi theta psi)).
Proof.
  intros Hw.
  assert (Hc : c0 (R_euler phi theta psi)
               = cos (theta / 2) * cos ((phi + psi) / 2)).
  { rewrite R_euler_components. reflexivity. }
  unfold notebook.
  rewrite rotorToMatrix_even by apply R_euler_even. unfold bind.
  rewrite matrixToRotor_quaternionMatrix;
    [|apply R_euler_is_rotor|lra].
  rewrite Rabs_pos_eq by lra.
  replace (c0 (R_euler phi theta psi) / c0 (R_euler phi theta psi)) with 1
    by (field; lra).
  rewrite smul_1. reflexivity.
Qed.

Lemma notebook_call_positive :
  0 < cos (PI / 4 / 2) * cos ((PI / 4 + PI / 4) / 2).
Proof.
  pose proof PI_RGT_0.
  apply Rmult_lt_0_compat; apply cos_gt_0; lra.
Qed.

Lemma notebook_recovers_rotor_witness :
  0 < cos (PI / 4 / 2) * cos ((PI / 4 + PI / 4) / 2) /\
  notebook (PI / 4) (PI / 4) (PI / 4) =
    Ok (finite (R_euler (PI / 4) (PI / 4) (PI / 4))).
Proof.
  split; [apply notebook_call_positive|].
  apply (notebook_recovers_rotor (PI / 4) (PI / 4) (PI / 4)).
  apply notebook_call_positive.
Defined.

(* ------------------------------------------------------------------ *)
(** * Rotating a frame, continued *)

(** X17.  Rotating with a product of two multivectors is rotating with the
    right factor first and the left factor second. *)
Theorem rotateFrame_compose (S T : MV) (F : list MV) :
  rotateFrame (gp S T) F = rotateFrame S (rotateFrame T F).
Proof.
  unfold rotateFrame. rewrite map_map. apply map_ext. intros a.
  rewrite reverse_gp, !gp_assoc. reflexivity.
Qed.

(** X18.  A multivector and its opposite rotate every frame alike. *)
Theorem rotateFrame_sign (S : MV) (F : list MV) :
  rotateFrame (neg S) F = rotateFrame S F.
Proof.
  unfold rotateFrame. apply map_ext. intros a.
  rewrite reverse_neg, gp_neg_l, gp_neg_l, gp_neg_r, neg_neg. reflexivity.
Qed.

(** X19.  An even multivector that is not of unit magnitude maps an
    orthonormal frame to vectors that are still mutually orthogonal, each of
    squared length the square of its squared magnitude. *)
Theorem rotateFrame_scaling (S : MV) (F : list MV) :
  is_even S -> is_frame F ->
  Forall is_vector (rotateFrame S F) /\
  forall i j, (i < 3)%nat -> (j < 3)%nat ->
    dot (nth i (rotateFrame S F) zero) (nth j (rotateFrame S F) zero)
    = mag2 S * mag2 S * delta i j.
Proof.
  intros He [Hlen [Hvec Hdot]]. split.
  - unfold rotateFrame. apply Forall_map.
    eapply Forall_impl; [|exact Hvec].
    intros a Ha. apply sandwich_vector; assumption.
  - intros i j Hi Hj. rewrite <- Hlen in Hi, Hj.
    rewrite !rotateFrame_nth by assumption.
    rewrite Forall_forall in Hvec.
    rewrite sandwich_dot; try assumption;
      try (apply Hvec, nth_In; assumption).
    rewrite Hdot by assumption. reflexivity.
Qed.

Lemma rotateFrame_scaling_witness :
  is_even (scalar 2) /\ is_frame canonical /\
  Forall is_vector (rotateFrame (scalar 2) canonical) /\
  forall i j, (i < 3)%nat -> (j < 3)%nat ->
    dot (nth i (rotateFrame (scalar 2) canonical) zero)
        (nth j (rotateFrame (scalar 2) canonical) zero)
    = mag2 (scalar 2) * mag2 (scalar 2) * delta i j.
Proof.
  assert (He : is_even (scalar 2)) by (repeat split).
  split; [exact He|]. split; [apply canonical_is_frame|].
  apply (rotateFrame_scaling (scalar 2) canonical).
  - exact He.
  - apply canonical_is_frame.
Defined.

(* ------------------------------------------------------------------ *)
(** * Arrays of other shapes *)

Lemma getitem_in_array (M : Matrix) (i j : nat) :
  in_array M i j -> getitem M i j = Ok (entry M i j).
Proof.
  intros (row & Hr & Hj). unfold getitem, entry. rewrite Hr.
  rewrite (nth_error_nth' row 0 Hj).
  apply nth_error_nth with (d := []) in Hr. rewrite Hr. reflexivity.
Qed.

Lemma getitem_outside (M : Matrix) (i j : nat) :
  ~ in_array M i j -> getitem M i j = Raise IndexError.
Proof.
  intros H. unfold getitem.
  destruct (nth_error M i) as [row|] eqn:Hr; [|reflexivity].
  destruct (nth_error row j) as [x|] eqn:Hx; [|reflexivity].
  exfalso. apply H. exists row. split; [exact Hr|].
  apply nth_error_Some. rewrite Hx. discriminate.
Qed.

Lemma in_array_cases (M : Matrix) (i j : nat) :
  in_array M i j \/ ~ in_array M i j.
Proof.
  unfold in_array. destruct (nth_error M i) as [row|].
  - destruct (Nat.lt_ge_cases j (length row)) as [H|H].
    + left. exists row. split; [reflexivity|exact H].
    + right. intros (r & Hr & Hj). injection Hr as <-. lia.
  - right. intros (r & Hr & _). discriminate.
Qed.

Lemma lt3_cases (i : nat) :
  (i < 3)%nat -> i = 0%nat \/ i = 1%nat \/ i = 2%nat.
Proof. lia. Qed.

Lemma matrixToRotor_all_inside (M : Matrix) :
  (forall i j, (i < 3)%nat -> (j < 3)%nat -> in_array M i j) ->
  matrixToRotor M = matrixToRotor (upperLeft M).
Proof.
  intros H. unfold matrixToRotor, matrixToFrame, column.
  rewrite !getitem_in_array by (apply H; lia). reflexivity.
Qed.

Ltac step_getitem M i j :=
  let H := fresh "Hin" in
  destruct (in_array_cases M i j) as [H|H];
  [rewrite (getitem_in_array _ _ _ H)
  |rewrite (getitem_outside _ _ _ H); reflexivity].

Lemma matrixToRotor_some_outside (M : Matrix) :
  (exists i j, (i < 3)%nat /\ (j < 3)%nat /\ ~ in_array M i j) ->
  matrixToRotor M = Raise IndexError.
Proof.
  intros (i & j & Hi & Hj & Hout).
  unfold matrixToRotor, matrixToFrame, column.
  step_getitem M 0%nat 0%nat. step_getitem M 1%nat 0%nat.
  step_getitem M 2%nat 0%nat. step_getitem M 0%nat 1%nat.
  step_getitem M 1%nat 1%nat. step_getitem M 2%nat 1%nat.
  step_getitem M 0%nat 2%nat. step_getitem M 1%nat 2%nat.
  step_getitem M 2%nat 2%nat.
  exfalso. apply Hout.
  destruct (lt3_cases i Hi) as [-> | [-> | ->]];
    destruct (lt3_cases j Hj) as [-> | [-> | ->]]; assumption.
Qed.

Lemma inside_or_outside (M : Matrix) :
  (forall i j, (i < 3)%nat -> (j < 3)%nat -> in_array M i j) \/
  (exists i j, (i < 3)%nat /\ (j < 3)%nat /\ ~ in_array M i j).
Proof.
  destruct (in_array_cases M 0 0);
    [|right; exists 0%nat, 0%nat; repeat split; (lia || assumption)].
  destruct (in_array_cases M 0 1);
    [|right; exists 0%nat, 1%nat; repeat split; (lia || assumption)].
  destruct (in_array_cases M 0 2);
    [|right; exists 0%nat, 2%nat; repeat split; (lia || assumption)].
  destruct (in_array_cases M 1 0);
    [|right; exists 1%nat, 0%nat; repeat split; (lia || assumption)].
  destruct (in_array_cases M 1 1);
    [|right; exists 1%nat, 1%nat; repeat split; (lia || assumption)].
  destruct (in_array_cases M 1 2);
    [|right; exists 1%nat, 2%nat; repeat split; (lia || assumption)].
  destruct (in_array_cases M 2 0);
    [|right; exists 2%nat, 0%nat; repeat split; (lia || assumption)].
  destruct (in_array_cases M 2 1);
    [|right; exists 2%nat, 1%nat; repeat split; (lia || assumption)].
  destruct (in_array_cases M 2 2);
    [|right; exists 2%nat, 2%nat; repeat split; (lia || assumption)].
  left. intros i j Hi Hj.
  destruct (lt3_cases i Hi) as [-> | [-> | ->]];
    destruct (lt3_cases j Hj) as [-> | [-> | ->]]; assumption.
Qed.

(** X20.  The matrix-to-rotor cells read the nine entries of the upper left
    3x3 block and nothing else: on a larger array they return, silently,
    the result of that block. *)
Theorem matrixToRotor_upper_left (M : Matrix) :
  (forall i j, (i < 3)%nat -> (j < 3)%nat -> in_array M i j) ->
  matrixToRotor M = matrixToRotor (upperLeft M) /\
  returns (matrixToRotor M).
Proof.
  intros H. rewrite (matrixToRotor_all_inside M H). split; [reflexivity|].
  unfold upperLeft. rewrite matrixToRotor_mat3. eexists. reflexivity.
Qed.

Lemma array_4x4_inside :
  forall i j, (i < 3)%nat -> (j < 3)%nat -> in_array array_4x4 i j.
Proof.
  intros i j Hi Hj.
  destruct (lt3_cases i Hi) as [-> | [-> | ->]];
    (eexists; split; [reflexivity|simpl; lia]).
Qed.

Lemma matrixToRotor_upper_left_witness :
  (forall i j, (i < 3)%nat -> (j < 3)%nat -> in_array array_4x4 i j) /\
  matrixToRotor array_4x4 = matrixToRotor (upperLeft array_4x4) /\
  returns (matrixToRotor array_4x4).
Proof.
  split; [apply array_4x4_inside|].
  apply (matrixToRotor_upper_left array_4x4). apply array_4x4_inside.
Defined.

(** X21.  The matrix-to-rotor cells raise [IndexError] exactly when one of
    the nine indices is outside the array, and raise nothing else. *)
Theorem matrixToRotor_index_error (M : Matrix) :
  (raises (matrixToRotor M) IndexError <->
   exists i j, (i < 3)%nat /\ (j < 3)%nat /\ ~ in_array M i j) /\
  forall e, raises (matrixToRotor M) e -> e = IndexError.
Proof.
  assert (Hin : (forall i j, (i < 3)%nat -> (j < 3)%nat -> in_array M i j) ->
                forall e, ~ raises (matrixToRotor M) e).
  { intros H e. rewrite (matrixToRotor_all_inside M H).
    unfold upperLeft. rewrite matrixToRotor_mat3. apply Ok_not_raises. }
  split; [split|].
  - intros Hr. destruct (inside_or_outside M) as [H|H]; [|exact H].
    exfalso. exact (Hin H _ Hr).
  - apply matrixToRotor_some_outside.
  - intros e Hr. destruct (inside_or_outside M) as [H|H].
    + exfalso. exact (Hin H _ Hr).
    + unfold raises in Hr. rewrite (matrixToRotor_some_outside M H) in Hr.
      injection Hr as <-. reflexivity.
Qed.

(* ------------------------------------------------------------------ *)
(** * Where the matrix-to-rotor cells return [nan] *)

Lemma Ok_finite_not_nan (a : MV) : Ok (finite a) <> Ok all_nan.
Proof. unfold finite, all_nan. discriminate. Qed.

Lemma rotorSum_zero_iff (M : Matrix) :
  is_3x3 M -> (mag (rotorSum_spec M) = 0 <-> trace M = -1 /\ is_symmetric M).
Proof.
  intros H3. destruct (is_3x3_inv M H3)
    as (a & b & c & d & e & f & g & h & i & ->).
  rewrite rotorSum_spec_mat3, trace_mat3. unfold is_symmetric, entry. simpl.
  split.
  - intros H0. apply mag_zero_inv in H0.
    pose proof (f_equal c0 H0) as E0. pose proof (f_equal c12 H0) as E12.
    pose proof (f_equal c13 H0) as E13. pose proof (f_equal c23 H0) as E23.
    simpl in *. repeat split; lra.
  - intros (Ht & Hb & Hc & Hf). unfold mag. rewrite mag2_closedSum.
    replace (_ + _) with 0 by (subst; nra). apply sqrt_0.
Qed.



(** X22.  On a 3x3 matrix the result is the multivector of [nan] exactly
    when the matrix is symmetric of trace -1. *)
Theorem matrixToRotor_nan_iff (M : Matrix) :
  is_3x3 M ->
  (matrixToRotor M = Ok all_nan <-> trace M = -1 /\ is_symmetric M).
Proof.
  intros H3. rewrite <- rotorSum_zero_iff by assumption.
  rewrite matrixToRotor_div by assumption. split.
  - intros H.
    destruct (Req_dec_T (mag (rotorSum_spec M)) 0) as [E|E]; [exact E|].
    rewrite div_nonzero in H by assumption.
    exfalso. exact (Ok_finite_not_nan _ H).
  - intros H0. rewrite H0, (mag_zero_inv _ H0). apply f_equal, div_zero_zero.
Qed.

Lemma half_turn_symmetric : trace half_turn_e3 = -1 /\ is_symmetric half_turn_e3.
Proof.
  split.
  - unfold half_turn_e3. rewrite trace_mat3. ring.
  - repeat split.
Qed.

Lemma matrixToRotor_nan_iff_witness :
  is_3x3 half_turn_e3 /\
  (matrixToRotor half_turn_e3 = Ok all_nan <->
   trace half_turn_e3 = -1 /\ is_symmetric half_turn_e3).
Proof.
  split; [apply is_3x3_mat3|].
  apply (matrixToRotor_nan_iff half_turn_e3). apply is_3x3_mat3.
Defined.




Lemma rotorSum_spec_transpose3 (M : Matrix) :
  is_3x3 M -> rotorSum_spec (transpose3 M) = reverse (rotorSum_spec M).
Proof.
  intros H3. destruct (is_3x3_inv M H3)
    as (a & b & c & d & e & f & g & h & i & ->).
  unfold transpose3, entry. simpl. rewrite !rotorSum_spec_mat3.
  unfold closedSum. mv_ring.
Qed.

(** X24.  Transposing a 3x3 matrix reverses the rotor of the
    matrix-to-rotor cells. *)
Theorem matrixToRotor_transpose (M : Matrix) :
  is_3x3 M -> mag (rotorSum_spec M) <> 0 ->
  exists Rr, matrixToRotor M = Ok (finite Rr) /\
             matrixToRotor (transpose3 M) = Ok (finite (reverse Rr)).
Proof.
  intros H3 Hm. exists (smul (/ mag (rotorSum_spec M)) (rotorSum_spec M)).
  split.
  - rewrite matrixToRotor_div, div_nonzero by assumption. reflexivity.
  - rewrite matrixToRotor_div by apply is_3x3_mat3.
    rewrite rotorSum_spec_transpose3 by assumption.
    assert (Hr : mag (reverse (rotorSum_spec M)) = mag (rotorSum_spec M)).
    { unfold mag. rewrite mag2_reverse. reflexivity. }
    rewrite Hr, div_nonzero by assumption.
    rewrite reverse_smul. reflexivity.
Qed.

Lemma matrixToRotor_transpose_witness :
  is_3x3 quarter_turn_e3 /\ mag (rotorSum_spec quarter_turn_e3) <> 0 /\
  exists Rr, matrixToRotor quarter_turn_e3 = Ok (finite Rr) /\
             matrixToRotor (transpose3 quarter_turn_e3)
             = Ok (finite (reverse Rr)).
Proof.
  split; [apply is_3x3_mat3|]. split; [apply quarter_turn_regular|].
  apply (matrixToRotor_transpose quarter_turn_e3).
  - apply is_3x3_mat3.
  - apply quarter_turn_regular.
Defined.

(* ------------------------------------------------------------------ *)
(** * Where the matrix cells raise *)

Lemma mapM_length {A B : Type} (f : A -> result B) (l : list A) (l' : list B) :
  mapM f l = Ok l' -> length l' = length l.
Proof.
  revert l'. induction l as [|x l IH]; intros l' H; simpl in H.
  - injection H as <-. reflexivity.
  - destruct (f x) as [y|e]; simpl in H; [|discriminate].
    destruct (mapM f l) as [ys|e]; simpl in H; [|discriminate].
    injection H as <-. simpl. f_equal. apply IH. reflexivity.
Qed.

Lemma mapM_raises {A B : Type} (f : A -> result B) (l : list A) (e : exn) :
  mapM f l = Raise e -> exists x, In x l /\ f x = Raise e.
Proof.
  induction l as [|x l IH]; intros H; simpl in H; [discriminate|].
  destruct (f x) as [y|e'] eqn:Hx; simpl in H.
  - destruct (mapM f l) as [ys|e'']; simpl in H; [discriminate|].
    injection H as ->. destruct (IH eq_refl) as (x' & Hin & Hx').
    exists x'. split; [right; exact Hin|exact Hx'].
  - injection H as ->. exists x. split; [left; reflexivity|exact Hx].
Qed.

Lemma mapM_all_ok {A B : Type} (f : A -> result B) (l : list A) :
  (forall x, In x l -> exists y, f x = Ok y) -> exists l', mapM f l = Ok l'.
Proof.
  induction l as [|x l IH]; intros H; simpl.
  - eexists. reflexivity.
  - destruct (H x (or_introl eq_refl)) as (y & ->).
    destruct IH as (ys & ->); [intros x' Hx'; apply H; right; exact Hx'|].
    eexists. reflexivity.
Qed.


Lemma pairs_length (A B : list MV) :
  length (flat_map (fun b => map (fun a => (b, a)) A) B)
  = (length B * length A)%nat.
Proof.
  induction B as [|b B IH]; simpl; [reflexivity|].
  rewrite length_app, length_map, IH. reflexivity.
Qed.

Lemma reshape_3_3_ok (l : list R) (M : Matrix) :
  reshape_3_3 l = Ok M -> length l = 9%nat /\ is_3x3 M.
Proof.
  destruct l as [|a [|b [|c [|d [|e [|f [|g [|h [|i [|]]]]]]]]]];
    try discriminate.
  intros H. injection H as <-. split; [reflexivity|apply is_3x3_mat3].
Qed.

Lemma reshape_3_3_length (l : list R) :
  length l = 9%nat -> exists M, reshape_3_3 l = Ok M.
Proof.
  destruct l as [|a [|b [|c [|d [|e [|f [|g [|h [|i [|]]]]]]]]]];
    try discriminate.
  intros _. eexists. reflexivity.
Qed.

Lemma reshape_3_3_raises (l : list R) (e : exn) :
  reshape_3_3 l = Raise e -> e = ValueError.
Proof.
  destruct l as [|a [|b [|c [|d [|e0 [|f [|g [|h [|i [|]]]]]]]]]];
    simpl; intros H; try discriminate; injection H as <-; reflexivity.
Qed.

Lemma to_float_raises (a : MV) (e : exn) :
  to_float a = Raise e -> e = ValueError.
Proof.
  unfold to_float. destruct (is_scalar_dec a); [discriminate|].
  intros H. injection H as <-. reflexivity.
Qed.


Lemma frameToMatrix_raises (A B : list MV) (e : exn) :
  raises (frameToMatrix A B) e -> e = ValueError.
Proof.
  intros H. unfold raises, frameToMatrix in H.
  destruct (mapM _ _) as [l|e'] eqn:Hm; simpl in H.
  - apply reshape_3_3_raises in H. exact H.
  - injection H as ->. apply mapM_raises in Hm.
    destruct Hm as (x & _ & Hx). apply to_float_raises in Hx. exact Hx.
Qed.

(** X25.  The matrix cells return only when the two lists have nine pairs
    between them, the result is then 3x3, and the only exception they raise
    is [ValueError]. *)
Theorem frameToMatrix_shape (A B : list MV) :
  (forall M, frameToMatrix A B = Ok M ->
     (length A * length B = 9)%nat /\ is_3x3 M) /\
  (forall e, raises (frameToMatrix A B) e -> e = ValueError).
Proof.
  split.
  - intros M H. unfold frameToMatrix in H.
    destruct (mapM _ _) as [l|e] eqn:Hm; simpl in H; [|discriminate].
    apply mapM_length in Hm. rewrite pairs_length in Hm.
    apply reshape_3_3_ok in H. destruct H as [Hl H3].
    split; [lia|exact H3].
  - intros e. apply frameToMatrix_raises.
Qed.

(** X26.  On lists of vectors, of any lengths, the matrix cells return
    exactly when the product of the lengths is 9: one vector against nine
    is accepted like three against three. *)
Theorem frameToMatrix_vectors_returns_iff (A B : list MV) :
  Forall is_vector A -> Forall is_vector B ->
  (returns (frameToMatrix A B) <-> (length A * length B = 9)%nat).
Proof.
  intros HA HB.
  assert (Hok : exists l,
             mapM (fun ba => to_float (inner (fst ba) (snd ba)))
                  (flat_map (fun b => map (fun a => (b, a)) A) B) = Ok l).
  { apply mapM_all_ok. intros [b a] Hin. simpl.
    apply in_flat_map in Hin. destruct Hin as (b' & Hb' & Hin).
    apply in_map_iff in Hin. destruct Hin as (a' & Heq & Ha').
    injection Heq as <- <-.
    rewrite Forall_forall in HA, HB.
    eexists. apply to_float_inner_vectors; [apply HB|apply HA]; assumption. }
  destruct Hok as (l & Hl). pose proof (mapM_length _ _ _ Hl) as Hlen.
  rewrite pairs_length in Hlen.
  unfold returns, frameToMatrix. rewrite Hl. simpl. split.
  - intros (M & HM). apply reshape_3_3_ok in HM. lia.
  - intros H9. apply reshape_3_3_length. lia.
Qed.

Lemma frameToMatrix_vectors_returns_iff_witness :
  Forall is_vector [e1] /\ Forall is_vector (repeat e2 9) /\
  (returns (frameToMatrix [e1] (repeat e2 9)) <->
   (length [e1] * length (repeat e2 9) = 9)%nat).
Proof.
  assert (H1 : Forall is_vector [e1]) by (repeat constructor).
  assert (H9 : Forall is_vector (repeat e2 9)) by (repeat constructor).
  split; [exact H1|]. split; [exact H9|].
  apply (frameToMatrix_vectors_returns_iff [e1] (repeat e2 9)).
  - exact H1.
  - exact H9.
Defined.




Lemma dot_comm_vectors (a b : MV) :
  is_vector a -> is_vector b -> dot a b = dot b a.
Proof. intros Ha Hb. rewrite !dot_vectors by assumption. ring. Qed.

(** X28.  Exchanging the original and the rotated triple of vectors
    transposes the matrix. *)
Theorem frameToMatrix_swap (A B : list MV) :
  length A = 3%nat -> length B = 3%nat ->
  Forall is_vector A -> Forall is_vector B ->
  exists M, frameToMatrix A B = Ok M /\
            frameToMatrix B A = Ok (transpose3 M).
Proof.
  intros HlA HlB HA HB.
  destruct (length3_inv A HlA) as (a0 & a1 & a2 & ->).
  destruct (length3_inv B HlB) as (b0 & b1 & b2 & ->).
  eexists. split; [apply frameToMatrix_vectors; assumption|].
  rewrite frameToMatrix_vectors by assumption.
  apply Forall3_inv in HA. destruct HA as (Ha0 & Ha1 & Ha2).
  apply Forall3_inv in HB. destruct HB as (Hb0 & Hb1 & Hb2).
  apply f_equal. unfold transpose3, entry. simpl.
  apply mat3_ext; apply dot_comm_vectors; assumption.
Qed.

Lemma frameToMatrix_swap_witness :
  length canonical = 3%nat /\ length [e2; e3; e1] = 3%nat /\
  Forall is_vector canonical /\ Forall is_vector [e2; e3; e1] /\
  exists M, frameToMatrix canonical [e2; e3; e1] = Ok M /\
            frameToMatrix [e2; e3; e1] canonical = Ok (transpose3 M).
Proof.
  split; [reflexivity|]. split; [reflexivity|].
  split; [repeat constructor|]. split; [repeat constructor|].
  apply (frameToMatrix_swap canonical [e2; e3; e1]).
  - reflexivity.
  - reflexivity.
  - repeat constructor.
  - repeat constructor.
Defined.

(* ------------------------------------------------------------------ *)
(** * The rotor of a rotation matrix and its rows and columns *)

Lemma closedSum_sandwich_reverse (a b c d e f g h i : R) :
  is_rotation (mat3 a b c d e f g h i) ->
  let S := closedSum a b c d e f g h i in
  gp (gp (reverse S) e1) S = smul (mag2 S) (mkMV 0 a d g 0 0 0 0) /\
  gp (gp (reverse S) e2) S = smul (mag2 S) (mkMV 0 b e h 0 0 0 0) /\
  gp (gp (reverse S) e3) S = smul (mag2 S) (mkMV 0 c f i 0 0 0 0).
Proof.
  intros Hrot S.
  pose proof (mag2_closedSum_rotation _ _ _ _ _ _ _ _ _ Hrot) as Hm.
  fold S in Hm. rewrite Hm. clear Hm.
  apply is_rotation_mat3 in Hrot.
  destruct Hrot as ((H00 & H11 & H22 & H01 & H02 & H12) & Hd).
  unfold S, closedSum.
  repeat split; apply mv_eq; simpl; nsatz.
Qed.

Lemma sandwich_reverse_smul (k : R) (S a : MV) :
  gp (gp (reverse (smul k S)) a) (reverse (reverse (smul k S))) =
  smul (k * k) (gp (gp (reverse S) a) S).
Proof. mv_ring. Qed.

(** X29.  For a proper rotation matrix that is not a half turn, the rotor
    of the matrix-to-rotor cells carries the canonical basis onto the rows
    of the matrix, and its reverse carries it onto the columns. *)
Theorem matrixToRotor_rows_columns (a b c d e f g h i : R) :
  is_rotation (mat3 a b c d e f g h i) -> a + e + i <> -1 ->
  exists Rr,
    matrixToRotor (mat3 a b c d e f g h i) = Ok (finite Rr) /\
    rotateFrame Rr canonical =
      [mkMV 0 a b c 0 0 0 0; mkMV 0 d e f 0 0 0 0; mkMV 0 g h i 0 0 0 0] /\
    rotateFrame (reverse Rr) canonical =
      [mkMV 0 a d g 0 0 0 0; mkMV 0 b e h 0 0 0 0; mkMV 0 c f i 0 0 0 0].
Proof.
  intros Hrot Htr.
  pose proof (rotation_regular_mag _ _ _ _ _ _ _ _ _ Hrot Htr) as Hm.
  set (S := closedSum a b c d e f g h i) in *.
  exists (smul (/ mag S) S). split; [|split].
  - rewrite matrixToRotor_mat3. fold S. rewrite div_nonzero by exact Hm.
    reflexivity.
  - apply (rotateFrame_closedSum _ _ _ _ _ _ _ _ _ Hrot Hm).
  - destruct (closedSum_sandwich_reverse _ _ _ _ _ _ _ _ _ Hrot)
      as (E1 & E2 & E3).
    fold S in E1, E2, E3.
    assert (Hk : / mag S * / mag S * mag2 S = 1).
    { rewrite <- (mag_sqr S). field. exact Hm. }
    unfold rotateFrame, canonical. simpl map.
    rewrite !sandwich_reverse_smul, E1, E2, E3.
    rewrite !(smul_smul_cancel _ _ _ Hk). reflexivity.
Qed.

Lemma matrixToRotor_rows_columns_witness :
  is_rotation (mat3 0 (-1) 0 1 0 0 0 0 1) /\ 0 + 0 + 1 <> -1 /\
  exists Rr,
    matrixToRotor (mat3 0 (-1) 0 1 0 0 0 0 1) = Ok (finite Rr) /\
    rotateFrame Rr canonical =
      [mkMV 0 0 (-1) 0 0 0 0 0; mkMV 0 1 0 0 0 0 0 0; mkMV 0 0 0 1 0 0 0 0] /\
    rotateFrame (reverse Rr) canonical =
      [mkMV 0 0 1 0 0 0 0 0; mkMV 0 (-1) 0 0 0 0 0 0; mkMV 0 0 0 1 0 0 0 0].
Proof.
  assert (Ht : 0 + 0 + 1 <> -1) by lra.
  split; [apply quarter_turn_is_rotation|]. split; [exact Ht|].
  apply (matrixToRotor_rows_columns 0 (-1) 0 1 0 0 0 0 1).
  - apply quarter_turn_is_rotation.
  - exact Ht.
Defined.
